(** * Orchestration engine of the medical assistant: model and properties

    A shallow embedding of
    - [core/agent_state.py]                 (the turn state),
    - [agents/patient_supervisor/nodes.py], [graph.py]  (patient sub-workflow),
    - [agents/main_orchestrator/nodes.py], [graph.py]   (main graph),
    - [core/mcp_manager.py]                 (capability registry).

    Python dictionaries are finite maps with string keys, exceptions are an
    explicit result type, the language-model collaborators are oracles of an
    environment record, and every node records what it calls in a trace. *)

From Stdlib Require Import ZArith String Ascii List Bool Lia.
From stdpp Require Import base option list strings pretty gmap fin_maps.

Local Open Scope Z_scope.
Set Warnings "-register-all".

(** ** Python values, exceptions and traces *)

Module Py.

(** The dynamically typed values that travel through the state and come back
    from the JSON output parser. *)
Inductive value : Type :=
| VNone
| VBool (b : bool)
| VInt (n : Z)
| VStr (s : string)
| VList (xs : list value)
| VDict (kvs : list (string * value)).

(** [bool(v)] *)
Definition truthy (v : value) : bool :=
  match v with
  | VNone => false
  | VBool b => b
  | VInt n => negb (n =? 0)
  | VStr s => negb (String.eqb s "")
  | VList xs => match xs with [] => false | _ => true end
  | VDict kvs => match kvs with [] => false | _ => true end
  end.

(** [v == s] for a string literal [s] *)
Definition eq_str (v : value) (s : string) : bool :=
  match v with
  | VStr t => String.eqb t s
  | _ => false
  end.

(** [v in names] for a list of string literals *)
Definition in_strs (v : value) (names : list string) : bool :=
  existsb (eq_str v) names.

Definition join (sep : string) (parts : list string) : string :=
  String.concat sep parts.

(** [repr(v)]; a string is written between single quotes, its characters
    unescaped. *)
Fixpoint repr (v : value) : string :=
  match v with
  | VNone => "None"
  | VBool true => "True"
  | VBool false => "False"
  | VInt n => pretty n
  | VStr s => "'" +:+ s +:+ "'"
  | VList xs => "[" +:+ join ", " (List.map repr xs) +:+ "]"
  | VDict kvs =>
      "{" +:+ join ", "
        (List.map (fun kv => match kv with
                             | (k, x) => "'" +:+ k +:+ "': " +:+ repr x
                             end) kvs) +:+ "}"
  end.

(** [str(v)], the rendering used inside f-strings *)
Definition str (v : value) : string :=
  match v with
  | VStr s => s
  | _ => repr v
  end.

Inductive exn : Type :=
| ValueError (msg : string)
| AttributeError (msg : string)
| TypeError (msg : string)
| KeyError (msg : string)
| OutputParserException (msg : string)
| ConnectionError (msg : string)
| GraphRecursionError (msg : string).

(** [str(e)] *)
Definition exn_msg (e : exn) : string :=
  match e with
  | ValueError m | AttributeError m | TypeError m | KeyError m
  | OutputParserException m | ConnectionError m | GraphRecursionError m => m
  end.

Inductive result (A : Type) : Type :=
| Ok (a : A)
| Raise (e : exn).
Arguments Ok {A} a.
Arguments Raise {A} e.

(** What a step does to the outside world. *)
Inductive event : Type :=
| LlmInit (who : string)
| LlmInvoke (who : string) (query : string)
| NodeRun (name : string).

(** Computations that may raise and that log their calls. *)
Definition M (A : Type) : Type := (result A * list event)%type.

Definition ret {A} (a : A) : M A := (Ok a, []).
Definition raise {A} (e : exn) : M A := (Raise e, []).
Definition tell (ev : event) : M unit := (Ok tt, [ev]).
Definition lift {A} (r : result A) : M A := (r, []).

Definition bind {A B} (m : M A) (k : A -> M B) : M B :=
  match m with
  | (Ok a, t) => let '(r, t') := k a in (r, t ++ t')
  | (Raise e, t) => (Raise e, t)
  end.

(** [try: m  except Exception as e: h e] *)
Definition try_except {A} (m : M A) (h : exn -> M A) : M A :=
  match m with
  | (Ok a, t) => (Ok a, t)
  | (Raise e, t) => let '(r, t') := h e in (r, t ++ t')
  end.

(** [try: x = m  except Exception as e: return h e] followed by [k x] *)
Definition try_or_return {A B} (m : M A) (h : exn -> M B) (k : A -> M B) : M B :=
  match m with
  | (Ok a, t) => let '(r, t') := k a in (r, t ++ t')
  | (Raise e, t) => let '(r, t') := h e in (r, t ++ t')
  end.

(** [d.get(k)] on an association list, first binding wins *)
Fixpoint assoc {A} (k : string) (kvs : list (string * A)) : option A :=
  match kvs with
  | [] => None
  | (k', x) :: rest => if String.eqb k' k then Some x else assoc k rest
  end.

(** [v.get(k, d)]: only a dict has the method *)
Definition get (v : value) (k : string) (d : value) : result value :=
  match v with
  | VDict kvs => Ok (default d (assoc k kvs))
  | _ => Raise (AttributeError "object has no attribute 'get'")
  end.

(** [v[:n]]: defined on strings and lists *)
Definition slice_to (n : nat) (v : value) : result value :=
  match v with
  | VStr s => Ok (VStr (String.substring 0 n s))
  | VList xs => Ok (VList (take n xs))
  | _ => Raise (TypeError "object is not subscriptable")
  end.

Definition upper_ascii (c : ascii) : ascii :=
  let n := nat_of_ascii c in
  if (Nat.leb 97 n && Nat.leb n 122)%bool then ascii_of_nat (n - 32) else c.

(** [s.upper()] *)
Fixpoint upper (s : string) : string :=
  match s with
  | EmptyString => EmptyString
  | String c rest => String (upper_ascii c) (upper rest)
  end.

Definition newline : string := String (ascii_of_nat 10) EmptyString.

End Py.

Declare Scope py_scope.
Delimit Scope py_scope with py.
Notation "x <- m ;; k" := (Py.bind m (fun x => k))
  (at level 100, m at next level, right associativity) : py_scope.
Local Open Scope py_scope.

(** ** core/agent_state.py *)

Module State.
Import Py.

Inductive MessageClass := HumanMessage | AIMessage | SystemMessage | ToolMessage.

Record Message := { msg_class : MessageClass; content : string }.

(** [m.type] *)
Definition type (m : Message) : string :=
  match msg_class m with
  | HumanMessage => "human"
  | AIMessage => "ai"
  | SystemMessage => "system"
  | ToolMessage => "tool"
  end.

Definition is_human (m : Message) : bool :=
  match msg_class m with HumanMessage => true | _ => false end.

(** The state of one turn: the message list of [MessagesState] and the
    string-keyed fields of [AgentState]. A key may be absent. *)
Record AgentState := {
  messages : option (list Message);
  fields : gmap string value
}.

(** The keys [AgentState] declares besides [messages]. *)
Definition agent_state_keys : list string :=
  [ "current_input"; "final_output"; "intermediate_steps";
    "user_role"; "determined_intent"; "supervisor_name"; "tools_for_agent";
    "has_image"; "image_path"; "image_type";
    "needs_human_validation"; "validation_result"; "validation_comments";
    "retrieval_confidence"; "rag_sources"; "web_search_results";
    "patient_response_text"; "request_scheduling";
    "next_supervisor_required" ].

(** [state.get(key, dflt)] *)
Definition state_get (state : AgentState) (key : string) (dflt : value) : value :=
  default dflt (fields state !! key).

(** [state[key] = v] *)
Definition state_set (state : AgentState) (key : string) (v : value) : AgentState :=
  {| messages := messages state; fields := <[key := v]> (fields state) |}.

(** The mapping a node returns. The graph writes each entry whose key the
    state declares and ignores the others. *)
Definition declared (kv : string * value) : Prop := kv.1 ∈ agent_state_keys.

Definition apply_update (state : AgentState) (upd : gmap string value) : AgentState :=
  {| messages := messages state;
     fields := filter declared upd ∪ fields state |}.

(** [messages[-1]] guarded by [if messages] *)
Definition last_message (ms : list Message) : option Message := last ms.

(** [messages[:-1]] *)
Definition but_last (ms : list Message) : list Message := removelast ms.

End State.

(** ** The external collaborators *)

Module Collab.
Import Py.

(** The prompt texts of [config/settings.py]; the nodes only pass them on. *)
Record Settings := {
  PATIENT_INTENT_ROUTER_PROMPT : string;
  DOCTOR_INTENT_ROUTER_PROMPT : string;
  PATIENT_ANALYSIS_SYSTEM_PROMPT : string
}.

(** The language-model services, as possibly failing functions. *)
Record Env := {
  settings : Settings;
  (** [core.models.get_llm(name)] returned an instance *)
  get_llm : string -> bool;
  (** building [prompt | llm | parser] for the intent router *)
  router_chain : string -> result unit;
  (** [chain.invoke] of the router on a system prompt and a query *)
  router_invoke : string -> string -> result value;
  (** building the model and the chain of the patient analysis *)
  patient_chain : string -> result unit;
  (** [chain.invoke] of the patient analysis on a history and a query *)
  patient_invoke : string -> string -> result value
}.

End Collab.

(** ** The graph runtime: nodes, edges, conditional edges *)

Module Graph.
Import Py State.

Definition START : string := "__start__".
Definition END : string := "__end__".

Inductive edge : Type :=
| Edge (target : string)
| ConditionalEdges (path : AgentState -> value) (path_map : list (string * string)).

Record StateGraph := {
  nodes : list (string * (AgentState -> M AgentState));
  edges : list (string * edge)
}.

(** A node function returns a mapping; the runtime writes it to the state. *)
Definition node (f : AgentState -> M (gmap string value)) : AgentState -> M AgentState :=
  fun state => upd <- f state ;; ret (apply_update state upd).

(** The node that follows [src]. A conditional edge evaluates its path
    function on the state the node has just written and looks the result up
    in its table. *)
Definition next_node (g : StateGraph) (src : string) (state : AgentState) : result string :=
  match assoc src (edges g) with
  | Some (Edge target) => Ok target
  | Some (ConditionalEdges path path_map) =>
      match path state with
      | VStr r =>
          match assoc r path_map with
          | Some target => Ok target
          | None => Raise (KeyError r)
          end
      | v => Raise (KeyError (repr v))
      end
  | None => Raise (ValueError ("no edge leaves " +:+ src))
  end.

(** The default bound on the number of steps of one invocation. *)
Definition recursion_limit : nat := 25.

Fixpoint run (fuel : nat) (g : StateGraph) (current : string) (state : AgentState)
  : M AgentState :=
  if String.eqb current END then ret state
  else
    match fuel with
    | O => raise (GraphRecursionError "recursion limit reached")
    | S fuel' =>
        match assoc current (nodes g) with
        | None => raise (ValueError ("unknown node " +:+ current))
        | Some f =>
            _ <- tell (NodeRun current) ;;
            state' <- f state ;;
            nxt <- lift (next_node g current state') ;;
            run fuel' g nxt state'
        end
    end.

(** [graph.invoke(state)] *)
Definition invoke (g : StateGraph) (state : AgentState) : M AgentState :=
  first <- lift (next_node g START state) ;;
  run recursion_limit g first state.

End Graph.

(** ** agents/patient_supervisor *)

Module PatientSupervisor.
Import Py State Collab Graph.

Definition analyze_patient_query (env : Env) (state : AgentState)
  : M (gmap string value) :=
  let messages := default [] (State.messages state) in
  let history := but_last messages in
  let current_query :=
    match last_message messages with
    | Some m => if String.eqb (type m) "human" then content m else ""
    | None => ""
    end in
  if String.eqb current_query "" then
    ret {[ "patient_response_text" :=
             VStr "I'm sorry, I didnt quite catch that. could you please repeat your question?";
           "request_scheduling" := VBool false ]}
  else
    let history_str :=
      join newline (List.map (fun m => upper (type m) +:+ ": " +:+ content m) history) in
    try_or_return
      (_ <- tell (LlmInit "patient_analysis") ;;
       lift (patient_chain env (PATIENT_ANALYSIS_SYSTEM_PROMPT (settings env))))
      (fun _ =>
         ret {[ "patient_response_text" :=
                  VStr "Sorry, I'm having trouble understanding right now";
                "request_scheuling" := VBool false ]})
      (fun _ =>
         try_except
           (_ <- tell (LlmInvoke "patient_analysis" current_query) ;;
            llm_response <- lift (patient_invoke env history_str current_query) ;;
            response_text <-
              lift (get llm_response "response_text"
                      (VStr "I'm not sure how to respond to that")) ;;
            request_scheduling <-
              lift (get llm_response "reuqest_scheduling" (VBool false)) ;;
            _ <- lift (slice_to 100 response_text) ;;
            ret {[ "patient_response_text" := response_text;
                   "request_scheduling" := request_scheduling ]})
           (fun _ =>
              ret {[ "patient_response_text" :=
                       VStr "Sorry I encountered and error while thinking about your request";
                     "request_scheduling" := VBool false ]})).

Definition decide_next_step (state : AgentState) : string :=
  if truthy (state_get state "request_scheduling" (VBool false))
  then "prepare_for_scheduling"
  else "finish_conversation".

Definition prepare_for_scheduling (state : AgentState) : M (gmap string value) :=
  let response_text :=
    state_get state "patient_response_text" (VStr "Okay lets look scheduling") in
  ret {[ "final_output" := response_text;
         "next_supervisor_required" := VStr "supervisor_scheduling" ]}.

Definition finish_conversation (state : AgentState) : M (gmap string value) :=
  let response_text :=
    state_get state "patient_response_text" (VStr "Sorry Im not sure how to respond") in
  ret {[ "final_output" := response_text ]}.

Definition build_patient_supervisor_graph (env : Env) : StateGraph :=
  {| nodes :=
       [ ("analyze_patient_query", node (analyze_patient_query env));
         ("prepare_for_scheduling", node prepare_for_scheduling);
         ("finish_conversation", node finish_conversation) ];
     edges :=
       [ (START, Edge "analyze_patient_query");
         ("analyze_patient_query",
          ConditionalEdges (fun state => VStr (decide_next_step state))
            [ ("prepare_for_scheduling", "prepare_for_scheduling");
              ("finish_conversation", "finish_conversation") ]);
         ("prepare_for_scheduling", Edge END);
         ("finish_conversation", Edge END) ] |}.

End PatientSupervisor.

(** ** agents/main_orchestrator *)

Module Orchestrator.
Import Py State Collab Graph.

Definition route_logic_by_role (state : AgentState) : string :=
  let role := state_get state "user_role" (VStr "unknown") in
  if eq_str role "patient" then "patient_intent_router"
  else if eq_str role "doctor" then "doctor_intent_router"
  else "handle_error_node".

(** Generic call of the classifier that decides the next supervisor. *)
Definition _determine_intent_llm (env : Env) (state : AgentState)
    (system_prompt : string) (valid_supervisors : list string)
  : M (gmap string value) :=
  let messages := default [] (State.messages state) in
  let current_query :=
    match last_message messages with
    | Some m => if is_human m then content m else ""
    | None => ""
    end in
  let user_role := state_get state "user_role" VNone in
  if String.eqb current_query "" then
    ret {[ "supervisor_name" := VStr "handle_error_node";
           "route_error" := VStr "No query in state." ]}
  else
    try_or_return
      (_ <- tell (LlmInit "router") ;;
       if get_llm env "router"
       then lift (router_chain env system_prompt)
       else raise (ValueError "LLM instance not available"))
      (fun _ =>
         ret {[ "supervisor_name" := VStr "handle_error_node";
                "route_error" := VStr "Intent Router init failed." ]})
      (fun _ =>
         try_except
           (_ <- tell (LlmInvoke "router" current_query) ;;
            llm_response <- lift (router_invoke env system_prompt current_query) ;;
            supervisor <- lift (get llm_response "supervisor" VNone) ;;
            reasoning <- lift (get llm_response "reasoning" (VStr "N/A")) ;;
            if negb (in_strs supervisor valid_supervisors) then
              ret {[ "supervisor_name" := VStr "handle_error_node";
                     "route_error" :=
                       VStr ("Invalid routing target for role '" +:+ str user_role
                             +:+ "': " +:+ str supervisor) ]}
            else
              ret {[ "supervisor_name" := supervisor ]})
           (fun e =>
              ret {[ "supervisor_name" := VStr "handle_error_node";
                     "route_error" :=
                       VStr ("LLM intent routing failed: " +:+ exn_msg e) ]})).

Definition patient_intent_router (env : Env) (state : AgentState)
  : M (gmap string value) :=
  _determine_intent_llm env state
    (PATIENT_INTENT_ROUTER_PROMPT (settings env))
    [ "supervisor_patient_general"; "supervisor_scheduling"; "handle_error_node" ].

Definition doctor_intent_router (env : Env) (state : AgentState)
  : M (gmap string value) :=
  _determine_intent_llm env state
    (DOCTOR_INTENT_ROUTER_PROMPT (settings env))
    [ "supervisor_doctor_general"; "supervisor_summarization"; "handle_error_node" ].

Definition supervisor_doctor_general_placeholder (state : AgentState)
  : M (gmap string value) :=
  ret {[ "final_output" :=
           VStr "Placeholder: Doctor general query would be handled here." ]}.

Definition supervisor_scheduling_placeholder (state : AgentState)
  : M (gmap string value) :=
  ret {[ "final_output" := VStr "Placeholder: Scheduling logic would start here." ]}.

Definition supervisor_summarization_placeholder (state : AgentState)
  : M (gmap string value) :=
  ret {[ "final_output" := VStr "Placeholder: Summarization logic would start here." ]}.

Definition supervisor_image_analysis_placeholder (state : AgentState)
  : M (gmap string value) :=
  ret {[ "final_output" := VStr "Placeholder: Image analysis logic would start here." ]}.

Definition handle_error_node (state : AgentState) : M (gmap string value) :=
  let reason := state_get state "route_error" (VStr "Unknown processing error") in
  ret {[ "final_output" :=
           VStr ("Sorry, I encountered an error. Reason: " +:+ str reason) ]}.

(** Returns the node's own state object after its in-place assignment,
    together with the mapping of updates. *)
Definition check_supervisor_handoff (state : AgentState)
  : AgentState * gmap string value :=
  let next_supervisor := state_get state "next_supervisor_required" VNone in
  if truthy next_supervisor then
    (state_set state "next_supervisor_required" VNone,
     {[ "next_supervisor_required" := VNone ]})
  else (state, ∅).

(** The node as the graph runs it: the returned mapping is written to the
    state of the run. *)
Definition handoff_check_node : AgentState -> M AgentState :=
  node (fun state => ret (snd (check_supervisor_handoff state))).

Definition route_after_handoff_check (state : AgentState) : value :=
  let next_supervisor := state_get state "next_supervisor_required" VNone in
  if truthy next_supervisor then next_supervisor else VStr "output_stage".

Definition build_main_orchestrator_graph (env : Env) : StateGraph :=
  let patient_supervisor_compiled_graph :=
    PatientSupervisor.build_patient_supervisor_graph env in
  {| nodes :=
       [ ("patient_intent_router", node (patient_intent_router env));
         ("doctor_intent_router", node (doctor_intent_router env));
         ("supervisor_patient_general", invoke patient_supervisor_compiled_graph);
         ("supervisor_doctor_general", node supervisor_doctor_general_placeholder);
         ("supervisor_scheduling", node supervisor_scheduling_placeholder);
         ("supervisor_summarization", node supervisor_summarization_placeholder);
         ("supervisor_image_analysis", node supervisor_image_analysis_placeholder);
         ("handle_error_node", node handle_error_node);
         ("check_supervisor_handoff", handoff_check_node) ];
     edges :=
       [ (START,
          ConditionalEdges (fun state => VStr (route_logic_by_role state))
            [ ("patient_intent_router", "patient_intent_router");
              ("doctor_intent_router", "doctor_intent_router");
              ("handle_error_node", "handle_error_node") ]);
         ("patient_intent_router",
          ConditionalEdges (fun state => state_get state "supervisor_name" VNone)
            [ ("supervisor_patient_general", "supervisor_patient_general");
              ("supervisor_scheduling", "supervisor_scheduling");
              ("handle_error_node", "handle_error_node");
              ("__default__", "handle_error_node") ]);
         ("doctor_intent_router",
          ConditionalEdges (fun state => state_get state "supervisor_name" VNone)
            [ ("supervisor_doctor_general", "supervisor_doctor_general");
              ("supervisor_summarization", "supervisor_summarization");
              ("supervisor_image_analysis", "supervisor_image_analysis");
              ("handle_error_node", "handle_error_node");
              ("__default__", "handle_error_node") ]);
         ("supervisor_patient_general", Edge "check_supervisor_handoff");
         ("supervisor_doctor_general", Edge "check_supervisor_handoff");
         ("supervisor_scheduling", Edge "check_supervisor_handoff");
         ("supervisor_summarization", Edge "check_supervisor_handoff");
         ("supervisor_image_analysis", Edge "check_supervisor_handoff");
         ("check_supervisor_handoff",
          ConditionalEdges route_after_handoff_check
            [ ("supervisor_scheduling", "supervisor_scheduling");
              ("output_stage", END);
              ("__default__", "handle_error_node") ]);
         ("handle_error_node", Edge END) ] |}.

End Orchestrator.

(** ** core/mcp_manager.py *)

Module MCP.
Import Py.

Record BaseTool := { name : string; description : string }.

(** One server entry of the configuration file. *)
Abbreviation ServerConfig := (gmap string value).

(** A connected [MultiServerMCPClient], known by the servers it was built for. *)
Record Client := { client_servers : gmap string ServerConfig }.

(** The external tool servers, as possibly failing operations. *)
Record Servers := {
  client_new : gmap string ServerConfig -> result Client;
  client_aenter : Client -> result unit;
  client_get_tools : Client -> result (list BaseTool);
  client_aexit : Client -> result unit
}.

Inductive log_record : Type :=
| Info (msg : string)
| Warning (msg : string)
| MissingTools (missing : gset string)
| Error (msg : string).

Record MCPToolManager := {
  _raw_server_configs : gmap string ServerConfig;
  _active_server_configs : gmap string ServerConfig;
  _client : option Client;
  _tools : list BaseTool;
  _is_running : bool
}.

(** [MCPToolManager(server_configs)] *)
Definition __init__ (server_configs : gmap string ServerConfig) : MCPToolManager :=
  {| _raw_server_configs := server_configs;
     _active_server_configs := ∅;
     _client := None;
     _tools := [];
     _is_running := false |}.

(** Methods: they read and assign the fields of [self], may raise, and log.
    The lifecycle methods hold the manager's lock for their whole body, so
    each runs from a state to a state; the pause between connecting and
    listing the tools changes no field. *)
Definition T (A : Type) : Type :=
  MCPToolManager -> (result A * MCPToolManager * list log_record)%type.

Definition ret {A} (a : A) : T A := fun self => (Ok a, self, []).
Definition raise {A} (e : exn) : T A := fun self => (Raise e, self, []).
Definition log (r : log_record) : T unit := fun self => (Ok tt, self, [r]).
Definition lift {A} (r : result A) : T A := fun self => (r, self, []).
Definition read {A} (f : MCPToolManager -> A) : T A := fun self => (Ok (f self), self, []).
Definition assign (f : MCPToolManager -> MCPToolManager) : T unit :=
  fun self => (Ok tt, f self, []).

Definition bind {A B} (m : T A) (k : A -> T B) : T B :=
  fun self =>
    match m self with
    | (Ok a, self', l) => let '(r, self'', l') := k a self' in (r, self'', l ++ l')
    | (Raise e, self', l) => (Raise e, self', l)
    end.

(** [try: m  except Exception as e: h e] *)
Definition try_except {A} (m : T A) (h : exn -> T A) : T A :=
  fun self =>
    match m self with
    | (Ok a, self', l) => (Ok a, self', l)
    | (Raise e, self', l) => let '(r, self'', l') := h e self' in (r, self'', l ++ l')
    end.

(** [try: m  finally: f] *)
Definition try_finally {A} (m : T A) (f : T unit) : T A :=
  fun self =>
    match m self with
    | (r, self', l) =>
        match f self' with
        | (Ok _, self'', l') => (r, self'', l ++ l')
        | (Raise e, self'', l') => (Raise e, self'', l ++ l')
        end
    end.

End MCP.

Declare Scope mcp_scope.
Delimit Scope mcp_scope with mcp.
Notation "x <- m ;; k" := (MCP.bind m (fun x => k))
  (at level 100, m at next level, right associativity) : mcp_scope.

Module MCPManager.
Import Py MCP.
Local Open Scope mcp_scope.

Definition set_active (a : gmap string ServerConfig) (self : MCPToolManager) :=
  {| _raw_server_configs := _raw_server_configs self;
     _active_server_configs := a;
     _client := _client self;
     _tools := _tools self;
     _is_running := _is_running self |}.

Definition set_client (c : option Client) (self : MCPToolManager) :=
  {| _raw_server_configs := _raw_server_configs self;
     _active_server_configs := _active_server_configs self;
     _client := c;
     _tools := _tools self;
     _is_running := _is_running self |}.

Definition set_tools (ts : list BaseTool) (self : MCPToolManager) :=
  {| _raw_server_configs := _raw_server_configs self;
     _active_server_configs := _active_server_configs self;
     _client := _client self;
     _tools := ts;
     _is_running := _is_running self |}.

Definition set_is_running (b : bool) (self : MCPToolManager) :=
  {| _raw_server_configs := _raw_server_configs self;
     _active_server_configs := _active_server_configs self;
     _client := _client self;
     _tools := _tools self;
     _is_running := b |}.

(** [not config.get("disabled", False)] *)
Definition enabled (config : ServerConfig) : bool :=
  negb (truthy (default (VBool false) (config !! "disabled"))).

(** [self._client = None; self._tools = []; self._is_running = False] *)
Definition reset : T unit :=
  (_ <- assign (set_client None) ;;
   _ <- assign (set_tools []) ;;
   assign (set_is_running false))%mcp.

Definition start_client (srv : Servers) : T unit :=
  (running <- read _is_running ;;
   if running then log (Info "MCP client is already running")
   else
     _ <- log (Info "Starting MCP Client") ;;
     raw <- read _raw_server_configs ;;
     _ <- assign (set_active (filter (fun kv => enabled kv.2 = true) raw)) ;;
     active <- read _active_server_configs ;;
     if decide (active = ∅) then
       _ <- log (Warning "MCPToolManager: No active MCP servers configured. Client will not start") ;;
       reset
     else
       try_except
         (_ <- log (Info "Initializing MCP Client") ;;
          client <- lift (client_new srv active) ;;
          _ <- assign (set_client (Some client)) ;;
          _ <- lift (client_aenter srv client) ;;
          _ <- assign (set_is_running true) ;;
          _ <- log (Info "MCP client is starting...") ;;
          tools <- lift (client_get_tools srv client) ;;
          _ <- assign (set_tools tools) ;;
          _ <- log (Info "MCP client started.") ;;
          match tools with
          | [] => log (Warning "MCP client started but found no active tools. Check MCP server logs and configurations")
          | _ => ret tt
          end)
         (fun e =>
            _ <- log (Error ("Error starting MCP client: " +:+ exn_msg e)) ;;
            client <- read _client ;;
            _ <- match client with
                 | Some c =>
                     try_except (lift (client_aexit srv c))
                       (fun cleanup_e =>
                          log (Error ("Error during cleanup after failed start: "
                                      +:+ exn_msg cleanup_e)))
                 | None => ret tt
                 end ;;
            reset))%mcp.

Definition stop_client (srv : Servers) : T unit :=
  (running <- read _is_running ;;
   client <- read _client ;;
   match running, client with
   | true, Some c =>
       _ <- log (Info "Stopping MCP client...") ;;
       try_finally
         (try_except
            (_ <- lift (client_aexit srv c) ;;
             log (Info "MCP clinent stopped succesfully"))
            (fun e => log (Error ("Error stopping MCP client " +:+ exn_msg e))))
         reset
   | _, _ => log (Info "MCP client is not running or not initialized")
   end)%mcp.

Definition get_all_tools : T (list BaseTool) :=
  (running <- read _is_running ;;
   if negb running then
     _ <- log (Warning "MCP Client not running. Cannot get tools.") ;;
     ret []
   else read _tools)%mcp.

(** [tool.name in required_tool_names] *)
Definition name_in (required : list string) (tool : BaseTool) : bool :=
  existsb (String.eqb (name tool)) required.

Definition get_tools_for_agent (required_tool_names : option (list string))
  : T (list BaseTool) :=
  (all_tools <- get_all_tools ;;
   match required_tool_names with
   | None | Some [] => ret all_tools
   | Some required =>
       let agent_tools := List.filter (name_in required) all_tools in
       _ <- (if negb (Nat.eqb (length agent_tools) (length required)) then
               let found_names : gset string := list_to_set (List.map name agent_tools) in
               let missing_names : gset string := list_to_set required ∖ found_names in
               log (MissingTools missing_names)
             else ret tt) ;;
       ret agent_tools
   end)%mcp.

Definition is_running : T bool := read _is_running.

End MCPManager.

(** ** Conditions used in the statements *)

Module Conditions.
Import Py State Collab MCP MCPManager.

(** The latest message as both analysis and routing read it: the content of
    the last message when a human wrote it, the empty string otherwise. *)
Definition latest_query (state : AgentState) : string :=
  match last_message (default [] (messages state)) with
  | Some m => if is_human m then content m else ""
  | None => ""
  end.

(** No message, a last message that is not the user's, or an empty one. *)
Definition no_user_query (state : AgentState) : Prop :=
  latest_query state = "".

(** The role is neither patient nor doctor; an absent role counts. *)
Definition unknown_role (state : AgentState) : Prop :=
  state_get state "user_role" (VStr "unknown") ≠ VStr "patient"
  /\ state_get state "user_role" (VStr "unknown") ≠ VStr "doctor".

(** A handoff signal is set when the state holds a value that Python takes
    for true under [next_supervisor_required]. *)
Definition handoff_pending (state : AgentState) : Prop :=
  truthy (state_get state "next_supervisor_required" VNone) = true.

(** An answer of the classifier that cannot be used: the call raised (service
    unreachable or erroring, output that does not parse), the parsed output
    is no object, or its category is outside the allowed names. *)
Definition answer_rejected (valid : list string) (r : result value) : Prop :=
  match r with
  | Raise _ => True
  | Ok (VDict kvs) => in_strs (default VNone (assoc "supervisor" kvs)) valid = false
  | Ok _ => True
  end.

(** The failure modes of the classifier during one routing step. *)
Definition gateway_failure (env : Env) (state : AgentState)
    (system_prompt : string) (valid : list string) : Prop :=
  get_llm env "router" = false
  \/ (exists e, router_chain env system_prompt = Raise e)
  \/ answer_rejected valid (router_invoke env system_prompt (latest_query state)).

(** No configured server is enabled. *)
Definition no_active_provider (configs : gmap string ServerConfig) : Prop :=
  forall name config, configs !! name = Some config -> enabled config = false.

(** The states a manager built from [configs] goes through, whatever the
    servers answer to each call. *)
Inductive reachable (configs : gmap string ServerConfig) : MCPToolManager -> Prop :=
| reach_init : reachable configs (__init__ configs)
| reach_start srv self r self' l :
    reachable configs self ->
    start_client srv self = (r, self', l) ->
    reachable configs self'
| reach_stop srv self r self' l :
    reachable configs self ->
    stop_client srv self = (r, self', l) ->
    reachable configs self'.

(** A manager of [configs] that is not running. *)
Definition stopped (configs : gmap string ServerConfig) (self : MCPToolManager) : Prop :=
  _raw_server_configs self = configs
  /\ _client self = None /\ _tools self = [] /\ _is_running self = false.

(** The tools a caller can see: those of a running manager. *)
Definition available (self : MCPToolManager) : list BaseTool :=
  if _is_running self then _tools self else [].

End Conditions.

(** ** Concrete turns *)

Module Examples.
Import Py State Collab MCP.

Definition prompts : Settings :=
  {| PATIENT_INTENT_ROUTER_PROMPT := "You are a dispatcher for a PATIENT using a medical assistant.";
     DOCTOR_INTENT_ROUTER_PROMPT := "You are a dispatcher for a DOCTOR using a medical assistant AI.";
     PATIENT_ANALYSIS_SYSTEM_PROMPT := "You are an empathetic and helpful AI medical assistant conversing with a PATIENT." |}.

(** Collaborators that are up and give the same two answers to every call. *)
Definition answering (router_answer patient_answer : result value) : Env :=
  {| settings := prompts;
     get_llm := fun _ => true;
     router_chain := fun _ => Ok tt;
     router_invoke := fun _ _ => router_answer;
     patient_chain := fun _ => Ok tt;
     patient_invoke := fun _ _ => patient_answer |}.

(** The state [chat_endpoint] of [api/main.py] builds for a request. *)
Definition initial_state (query role : string) : AgentState :=
  {| messages := Some [ {| msg_class := HumanMessage; content := query |} ];
     fields := {[ "current_input" := VStr query; "user_role" := VStr role ]} |}.

(** A state without any message and without a role. *)
Definition blank_state : AgentState := {| messages := None; fields := ∅ |}.

Definition routing (supervisor : string) : result value :=
  Ok (VDict [ ("supervisor", VStr supervisor); ("reasoning", VStr "matches the query") ]).

(** An answer that follows the schema of [PatientAnalysisOutput]. *)
Definition schema_answer : result value :=
  Ok (VDict [ ("response_text", VStr "Okay, I can help you with scheduling.");
              ("request_scheduling", VBool true) ]).

(** An answer that carries the key the analysis step reads. *)
Definition misspelt_answer (text : string) : result value :=
  Ok (VDict [ ("response_text", VStr text); ("reuqest_scheduling", VBool true) ]).

Definition unreachable : result value := Raise (ConnectionError "connection refused").

Definition search_tool : BaseTool :=
  {| name := "search"; description := "web search" |}.

Definition no_servers : Servers :=
  {| client_new := fun _ => Raise (ConnectionError "no server");
     client_aenter := fun _ => Ok tt;
     client_get_tools := fun _ => Ok [];
     client_aexit := fun _ => Ok tt |}.

(** One server entry, switched off. *)
Definition disabled_config : gmap string (gmap string value) :=
  {[ "filesystem" := {[ "command" := VStr "npx"; "disabled" := VBool true ]} ]}.

(** A running manager that offers one tool. *)
Definition running_manager : MCPToolManager :=
  {| _raw_server_configs := {[ "web" := {[ "command" := VStr "npx" ]} ]};
     _active_server_configs := {[ "web" := {[ "command" := VStr "npx" ]} ]};
     _client := Some {| client_servers := {[ "web" := {[ "command" := VStr "npx" ]} ]} |};
     _tools := [ search_tool ];
     _is_running := true |}.

End Examples.

(** ** Conditions on a turn *)

Module Turns.
Import Py State Collab Conditions.

(** The routing step of a role, for the two roles that have one. *)
Definition intent_router (role : string)
  : Env -> AgentState -> M (gmap string value) :=
  if String.eqb role "patient" then Orchestrator.patient_intent_router
  else Orchestrator.doctor_intent_router.

(** The role the role gate reads. *)
Definition role_is (state : AgentState) (role : string) : Prop :=
  state_get state "user_role" (VStr "unknown") = VStr role.

(** The prompt the routing step of a role sends. *)
Definition router_prompt (role : string) (env : Env) : string :=
  if String.eqb role "patient" then PATIENT_INTENT_ROUTER_PROMPT (settings env)
  else DOCTOR_INTENT_ROUTER_PROMPT (settings env).

(** The classifier answers that lead a role to a placeholder supervisor,
    with the text that supervisor gives. *)
Inductive reaches_placeholder : string -> string -> string -> Prop :=
| patient_scheduling :
    reaches_placeholder "patient" "supervisor_scheduling"
      "Placeholder: Scheduling logic would start here."
| doctor_general :
    reaches_placeholder "doctor" "supervisor_doctor_general"
      "Placeholder: Doctor general query would be handled here."
| doctor_summarization :
    reaches_placeholder "doctor" "supervisor_summarization"
      "Placeholder: Summarization logic would start here.".

(** The router's model instance exists and its chain is built. *)
Definition classifier_up (env : Env) (system_prompt : string) : Prop :=
  get_llm env "router" = true /\ router_chain env system_prompt = Ok tt.

(** The classifier answers the latest query with an object that names
    supervisor [c]. *)
Definition classifier_answers (env : Env) (system_prompt : string)
    (state : AgentState) (c : string) : Prop :=
  exists kvs,
    router_invoke env system_prompt (latest_query state) = Ok (VDict kvs)
    /\ assoc "supervisor" kvs = Some (VStr c).

(** A value that [v[:100]] accepts. *)
Definition sliceable (v : value) : bool :=
  match v with
  | VStr _ | VList _ => true
  | _ => false
  end.

(** An answer of the patient analysis the step can use: an object whose
    response text, or the default text in its place, can be sliced. *)
Definition usable_answer (r : result value) : bool :=
  match r with
  | Ok (VDict kvs) =>
      sliceable (default (VStr "I'm not sure how to respond to that")
                   (assoc "response_text" kvs))
  | _ => false
  end.

(** The history the analysis step sends with the query: every message but
    the last, one per line. *)
Definition history_str (state : AgentState) : string :=
  join newline
    (List.map (fun m => upper (type m) +:+ ": " +:+ content m)
       (but_last (default [] (messages state)))).

(** The names the routing step of a role accepts from the classifier. *)
Definition accepted_supervisors (role : string) : list string :=
  if String.eqb role "patient"
  then [ "supervisor_patient_general"; "supervisor_scheduling"; "handle_error_node" ]
  else [ "supervisor_doctor_general"; "supervisor_summarization"; "handle_error_node" ].

End Turns.

(** ** Conditions on the life of the capability registry *)

Module Lifecycle.
Import Py MCP MCPManager Conditions.

(** The servers a start connects to: the entries that are not disabled. *)
Definition active_of (configs : gmap string ServerConfig) : gmap string ServerConfig :=
  filter (fun kv : string * ServerConfig => enabled kv.2 = true) configs.

(** The three calls of a start succeed: the client is built, entered, and
    lists [tools]. *)
Definition connects (srv : Servers) (active : gmap string ServerConfig)
    (c : Client) (tools : list BaseTool) : Prop :=
  client_new srv active = Ok c
  /\ client_aenter srv c = Ok tt
  /\ client_get_tools srv c = Ok tools.

(** One of the three calls of a start raises [e]. *)
Definition start_fails (srv : Servers) (active : gmap string ServerConfig)
    (e : exn) : Prop :=
  client_new srv active = Raise e
  \/ exists c, client_new srv active = Ok c
       /\ (client_aenter srv c = Raise e
           \/ (client_aenter srv c = Ok tt /\ client_get_tools srv c = Raise e)).

Definition is_error (r : log_record) : bool :=
  match r with Error _ => true | _ => false end.

(** The manager after a start that connected. *)
Definition started (configs : gmap string ServerConfig) (c : Client)
    (tools : list BaseTool) : MCPToolManager :=
  {| _raw_server_configs := configs;
     _active_server_configs := active_of configs;
     _client := Some c;
     _tools := tools;
     _is_running := true |}.

(** The manager after a start that did not connect. *)
Definition rolled_back (configs : gmap string ServerConfig) : MCPToolManager :=
  {| _raw_server_configs := configs;
     _active_server_configs := active_of configs;
     _client := None;
     _tools := [];
     _is_running := false |}.

(** What the fields of a manager tell about each other. *)
Definition consistent (configs : gmap string ServerConfig) (self : MCPToolManager) : Prop :=
  _raw_server_configs self = configs
  /\ if _is_running self
     then is_Some (_client self)
          /\ _active_server_configs self = active_of configs
          /\ active_of configs ≠ ∅
     else _client self = None /\ _tools self = [].

(** Servers that accept every connection and offer [tools]. *)
Definition serving (tools : list BaseTool) : Servers :=
  {| client_new := fun active => Ok {| client_servers := active |};
     client_aenter := fun _ => Ok tt;
     client_get_tools := fun _ => Ok tools;
     client_aexit := fun _ => Ok tt |}.

(** Servers that accept the connection and then fail, on listing the tools
    and on leaving. *)
Definition failing_late : Servers :=
  {| client_new := fun active => Ok {| client_servers := active |};
     client_aenter := fun _ => Ok tt;
     client_get_tools := fun _ => Raise (ConnectionError "tools: timed out");
     client_aexit := fun _ => Raise (ConnectionError "exit: broken pipe") |}.

Definition web_config : gmap string ServerConfig :=
  {[ "web" := {[ "command" := VStr "npx" ]} ]}.

End Lifecycle.

(** ** core/config_loader.py *)

Module ConfigLoader.
Import Py.

(** What [open] and [json.load] give for a path. *)
Inductive read_outcome : Type :=
| Parsed (config_data : value)
| JSONDecodeError (msg : string)
| ReadFailed (msg : string).

(** The surroundings of the loader: the file system and the process
    environment. *)
Record World := {
  is_file : string -> bool;
  read_json : string -> read_outcome;
  getenv : string -> option string
}.

Inductive log_record : Type :=
| LogError (msg : string)
| LogWarning (msg : string)
| LogInfo (msg : string)
| LogDebug (msg : string).

(** [type(v).__name__] *)
Definition type_name (v : value) : string :=
  match v with
  | VNone => "NoneType"
  | VBool _ => "bool"
  | VInt _ => "int"
  | VStr _ => "str"
  | VList _ => "list"
  | VDict _ => "dict"
  end.

(** [d[k] = v]: the binding is replaced in place, a new key goes last. *)
Fixpoint dict_set (k : string) (v : value) (kvs : list (string * value))
  : list (string * value) :=
  match kvs with
  | [] => [(k, v)]
  | (k', x) :: rest =>
      if String.eqb k' k then (k', v) :: rest else (k', x) :: dict_set k v rest
  end.

(** [s[n:]] *)
Fixpoint drop_chars (n : nat) (s : string) : string :=
  match n, s with
  | O, _ => s
  | S n', String _ rest => drop_chars n' rest
  | S _, EmptyString => EmptyString
  end.

(** The body of the inner loop: the value stored under [key]. *)
Definition resolve_value (w : World) (server_name key : string) (val : value)
  : value * list log_record :=
  match val with
  | VStr s =>
      if String.prefix "env:" s then
        let env_var_name := drop_chars 4 s in
        match getenv w env_var_name with
        | None =>
            (VStr "",
             [LogWarning ("Environment variable " +:+ env_var_name
                          +:+ " not found for MCP server " +:+ server_name
                          +:+ ", key '" +:+ key +:+ "'. Using empty string")])
        | Some env_var_value =>
            (VStr env_var_value,
             [LogDebug ("resolved env var '" +:+ env_var_name
                        +:+ "' for MCP server " +:+ server_name)])
        end
      else (val, [])
  | _ => (val, [])
  end.

(** [for key, value in resolved_conf["env"].items(): resolved_env[key] = ...] *)
Fixpoint resolve_env (w : World) (server_name : string)
    (items resolved_env : list (string * value))
  : list (string * value) * list log_record :=
  match items with
  | [] => (resolved_env, [])
  | (key, val) :: rest =>
      let '(v, l) := resolve_value w server_name key val in
      let '(r, l') := resolve_env w server_name rest (dict_set key v resolved_env) in
      (r, l ++ l')
  end.

(** The body of the outer loop up to the assignment: the copy of the entry,
    with its environment resolved. Only a dict and a list have [copy]; a
    list answers the membership test and cannot be indexed by a string. *)
Definition resolve_server (w : World) (server_name : string) (server_conf : value)
  : result value * list log_record :=
  match server_conf with
  | VDict kvs =>
      match assoc "env" kvs with
      | Some (VDict env) =>
          let '(resolved_env, l) := resolve_env w server_name env [] in
          (Ok (VDict (dict_set "env" (VDict resolved_env) kvs)), l)
      | _ => (Ok (VDict kvs), [])
      end
  | VList xs =>
      if existsb (fun x => eq_str x "env") xs
      then (Raise (TypeError "list indices must be integers or slices, not str"), [])
      else (Ok (VList xs), [])
  | _ =>
      (Raise (AttributeError ("'" +:+ type_name server_conf
                              +:+ "' object has no attribute 'copy'")), [])
  end.

(** [for server_name, server_conf in config_data.items(): ...] *)
Fixpoint resolve_servers (w : World) (items resolved_servers : list (string * value))
  : result (list (string * value)) * list log_record :=
  match items with
  | [] => (Ok resolved_servers, [])
  | (server_name, server_conf) :: rest =>
      match resolve_server w server_name server_conf with
      | (Ok resolved_conf, l) =>
          let '(r, l') :=
            resolve_servers w rest (dict_set server_name resolved_conf resolved_servers) in
          (r, l ++ l')
      | (Raise e, l) => (Raise e, l)
      end
  end.

Definition unexpected (config_path msg : string) : log_record :=
  LogError ("An unexpected error occured while loading MCP config '"
            +:+ config_path +:+ "' : " +:+ msg).

Definition load_mcp_config (w : World) (config_path : string)
  : list (string * value) * list log_record :=
  if negb (is_file w config_path) then
    ([], [LogError ("MCP configuration file was not found at " +:+ config_path)])
  else
    match read_json w config_path with
    | JSONDecodeError msg =>
        ([], [LogError ("Error parsing MCP JSON configuration file '"
                        +:+ config_path +:+ "' : " +:+ msg)])
    | ReadFailed msg => ([], [unexpected config_path msg])
    | Parsed config_data =>
        let loading := LogInfo ("Loading MCP configuration from " +:+ config_path) in
        match config_data with
        | VDict items =>
            match resolve_servers w items [] with
            | (Ok resolved_servers, l) =>
                (resolved_servers,
                 loading :: l ++
                 [LogInfo ("succesfully loaded and resolved "
                           +:+ pretty (length resolved_servers)
                           +:+ " MCP server configurations")])
            | (Raise e, l) => ([], loading :: l ++ [unexpected config_path (exn_msg e)])
            end
        | _ =>
            ([], [loading;
                  unexpected config_path
                    ("'" +:+ type_name config_data
                     +:+ "' object has no attribute 'items'")])
        end
    end.

End ConfigLoader.

(** ** Conditions on a configuration file *)

Module Files.
Import Py ConfigLoader.

Definition is_error (r : log_record) : bool :=
  match r with LogError _ => true | _ => false end.

(** A dict holds each key once. *)
Definition unique_keys (kvs : list (string * value)) : Prop :=
  NoDup (List.map fst kvs).


(** An entry as the servers' file has them: an object, and an object under
    ["env"] if there is one. *)
Definition server_object (server_conf : value) : Prop :=
  match server_conf with
  | VDict kvs =>
      unique_keys kvs
      /\ match assoc "env" kvs with
         | Some (VDict env) => unique_keys env
         | _ => True
         end
  | _ => False
  end.

(** A value that refers to a variable of the process environment. *)
Definition reference (v : value) : option string :=
  match v with
  | VStr s => if String.prefix "env:" s then Some (drop_chars 4 s) else None
  | _ => None
  end.

(** The value a reference stands for. *)
Definition dereferenced (w : World) (v : value) : value :=
  match reference v with
  | Some var => VStr (default "" (getenv w var))
  | None => v
  end.

(** The entry stored for an object of the file when each key is met once. *)
Definition resolved_object (w : World) (server_conf : value) : value :=
  match server_conf with
  | VDict kvs =>
      match assoc "env" kvs with
      | Some (VDict env) =>
          VDict (dict_set "env"
                   (VDict (List.map (fun kv => (kv.1, dereferenced w kv.2)) env)) kvs)
      | _ => server_conf
      end
  | _ => server_conf
  end.

(** No value of the entry's environment refers to a variable. *)
Definition without_reference (server_conf : value) : Prop :=
  match server_conf with
  | VDict kvs =>
      match assoc "env" kvs with
      | Some (VDict env) => Forall (fun kv => reference kv.2 = None) env
      | _ => True
      end
  | _ => True
  end.

(** The file at [config_path] parses to the object [items]. *)
Definition holds (w : World) (config_path : string) (items : list (string * value)) : Prop :=
  is_file w config_path = true /\ read_json w config_path = Parsed (VDict items).


(** A file with two servers, one with a token taken from the environment. *)
Definition servers_file : list (string * value) :=
  [ ("github",
     VDict [ ("command", VStr "npx");
             ("env", VDict [ ("GITHUB_TOKEN", VStr "env:GITHUB_TOKEN");
                             ("API_KEY", VStr "env:UNSET_KEY");
                             ("MODE", VStr "fast") ]) ]);
    ("filesystem",
     VDict [ ("command", VStr "npx"); ("disabled", VBool true) ]) ].

(** A file in which one entry is a string. *)
Definition broken_file : list (string * value) :=
  [ ("github", VDict [ ("command", VStr "npx") ]);
    ("notes", VStr "to do") ].

Definition world_of (items : list (string * value)) : World :=
  {| is_file := fun _ => true;
     read_json := fun _ => Parsed (VDict items);
     getenv := fun var => if String.eqb var "GITHUB_TOKEN" then Some "s3cret" else None |}.

End Files.

(** ** core/models: the shared model instances *)

Module Models.
Import Py MCP.

(** [core/models/llm.py]. An instance is whatever the constructor of the
    client returns; the constructor reads the API key from the settings and
    may raise. *)
Definition DEFAULT_LLM_CONFIG : list (string * string) :=
  [ ("router", "gemini-2.0-flash-lite");
    ("patient_analyzer", "gemini-2.0-flash");
    ("doctor_synthesizer", "gemini-2.5-pro-exp-03-25") ].

(** [get_llm(instance_name)] on the module's dictionary [_llm_instances]:
    the answer, the dictionary after the call, the log. *)
Definition get_llm {LLM} (ChatGoogleGenerativeAI : string -> result LLM)
    (instance_name : string) (_llm_instances : gmap string (option LLM))
  : option LLM * gmap string (option LLM) * list log_record :=
  match _llm_instances !! instance_name with
  | None =>
      let initializing :=
        Info ("Initializing LLM instance: '" +:+ instance_name +:+ "'...") in
      let model_name :=
        default "gemini-2.0-flash" (assoc instance_name DEFAULT_LLM_CONFIG) in
      match ChatGoogleGenerativeAI model_name with
      | Ok instance =>
          (Some instance, <[ instance_name := Some instance ]> _llm_instances,
           [ initializing;
             Info ("Initialized LLM instance '" +:+ instance_name
                   +:+ "' with model '" +:+ model_name +:+ "'") ])
      | Raise e =>
          (None, <[ instance_name := None ]> _llm_instances,
           [ initializing;
             Error ("Failed to initialize LLM instance '" +:+ instance_name
                    +:+ "': " +:+ exn_msg e) ])
      end
  | Some stored => (stored, _llm_instances, [])
  end.

Definition clear_llm_instances {LLM} (_ : gmap string (option LLM))
  : gmap string (option LLM) := ∅.

(** [core/models/embeddings.py]: [get_embedding_model()] on the module's
    variable [_embedding_model_instance]. *)
Definition get_embedding_model {E} (rag_embedding_model_name : string)
    (GoogleGenerativeAIEmbeddings : result E) (_embedding_model_instance : option E)
  : option E * option E * list log_record :=
  match _embedding_model_instance with
  | None =>
      match GoogleGenerativeAIEmbeddings with
      | Ok instance =>
          (Some instance, Some instance,
           [ Info "Initializing embedding model...";
             Info ("initialized embedding model: " +:+ rag_embedding_model_name) ])
      | Raise e =>
          (None, None,
           [ Info "Initializing embedding model...";
             Error ("Failed to initialize embedding model: " +:+ exn_msg e) ])
      end
  | Some instance => (Some instance, Some instance, [])
  end.

Definition clear_embedding_model_instance {E} (_ : option E) : option E := None.

(** [core/models/reranker.py]: [get_reranker()] on the module's variable
    [_reranker_compressor_instance]; the key is the setting
    [cohere_api_key], absent or a string. *)
Definition get_reranker {R} (cohere_api_key : option string) (reranker : string)
    (CohereRerank : result R) (_reranker_compressor_instance : option R)
  : option R * option R * list log_record :=
  match _reranker_compressor_instance with
  | None =>
      if truthy (from_option VStr VNone cohere_api_key) then
        match CohereRerank with
        | Ok instance =>
            (Some instance, Some instance,
             [ Info "Initializing Cohere Reranker...";
               Info ("Initialized CohereRerank compressor with model '"
                     +:+ reranker +:+ "'") ])
        | Raise e =>
            (None, None,
             [ Info "Initializing Cohere Reranker...";
               Error ("Failed to initialize CohereRerank: " +:+ exn_msg e) ])
        end
      else
        (None, None,
         [ Info "Initializing Cohere Reranker...";
           Warning "COHERE_API_KEY not configured. Reranker cannot be initialized." ])
  | Some instance => (Some instance, Some instance, [])
  end.

(** [get_compression_retriever(base_retriever)]: the pair of compressor and
    retriever the [ContextualCompressionRetriever] is built from. *)
Definition get_compression_retriever {R B} (cohere_api_key : option string)
    (reranker : string) (CohereRerank : result R) (base_retriever : option B)
    (_reranker_compressor_instance : option R)
  : option (R * B) * option R * list log_record :=
  let '(r, instance, l) :=
    get_reranker cohere_api_key reranker CohereRerank _reranker_compressor_instance in
  match r, base_retriever with
  | Some r, Some b => (Some (r, b), instance, l)
  | _, _ =>
      (None, instance,
       l ++ [ Warning "Cannot create compression retriever: Reranker or base_retriever not available." ])
  end.

End Models.

(** ** Successive calls to the shared instances *)

Module Calls.
Import Py MCP Models.

(** Calls to [get_llm] one after the other, each with the constructor as it
    behaves at that moment: the dictionary after the last call. *)
Fixpoint llm_calls {LLM} (calls : list ((string -> result LLM) * string))
    (_llm_instances : gmap string (option LLM)) : gmap string (option LLM) :=
  match calls with
  | [] => _llm_instances
  | (construct, instance_name) :: rest =>
      llm_calls rest (get_llm construct instance_name _llm_instances).1.2
  end.

(** Calls to [get_embedding_model] one after the other, the constructor
    behaving as [outcomes] tell: the answers and the variable after the last
    call. *)
Fixpoint embedding_calls {E} (name : string) (outcomes : list (result E))
    (instance : option E) : list (option E) * option E :=
  match outcomes with
  | [] => ([], instance)
  | outcome :: rest =>
      let '(answer, instance', _) := get_embedding_model name outcome instance in
      let '(answers, final) := embedding_calls name rest instance' in
      (answer :: answers, final)
  end.

(** Calls to [get_reranker] one after the other. *)
Fixpoint reranker_calls {R} (key : option string) (name : string)
    (outcomes : list (result R)) (instance : option R) : list (option R) * option R :=
  match outcomes with
  | [] => ([], instance)
  | outcome :: rest =>
      let '(answer, instance', _) := get_reranker key name outcome instance in
      let '(answers, final) := reranker_calls key name rest instance' in
      (answer :: answers, final)
  end.

(** The first instance that could be built. *)
Definition first_built {E} (outcomes : list (result E)) : option E :=
  head (omap (fun r => match r with Ok x => Some x | Raise _ => None end) outcomes).

End Calls.

(** ** agents/rag/document_processor.py *)

Module DocumentProcessor.
Import Py ConfigLoader MCP.

Record Document := {
  page_content : string;
  metadata : list (string * value)
}.

(** The library calls of the processor. *)
Record Library := {
  (** [RecursiveCharacterTextSplitter.split_text] *)
  split_text : string -> result (list string);
  (** [str.strip] *)
  strip : string -> string;
  (** [doc_type_patterns[doc_type].search(text) is not None] *)
  pattern_search : string -> string -> bool;
  (** [hashlib.md5(s.encode()).hexdigest()] *)
  md5_hexdigest : string -> string;
  (** [str(uuid.uuid5(uuid.NAMESPACE_DNS, s))] *)
  uuid5_dns : string -> string;
  (** [str(uuid.uuid4())] *)
  uuid4 : string;
  (** [datetime.now().isoformat()] when the chunk of an index is stored *)
  now_isoformat : nat -> string
}.

(** The keys of [doc_type_patterns], in their order. *)
Definition doc_types : list string :=
  [ "guideline"; "research_paper"; "policy"; "drug_info"; "textbook_chapter" ].

Definition _detect_document_type (lib : Library) (text : string) : string :=
  let text_start := String.substring 0 1000 text in
  default "unknown" (List.find (fun doc_type => pattern_search lib doc_type text_start) doc_types).

Fixpoint zeros (n : nat) : string :=
  match n with
  | O => ""
  | S n' => "0" +:+ zeros n'
  end.

(** [f"{i:04d}"] *)
Definition format_04d (i : nat) : string :=
  let digits := pretty i in
  zeros (4 - String.length digits) +:+ digits.

(** [d.setdefault(k, v)] *)
Definition setdefault (k : string) (v : value) (kvs : list (string * value))
  : list (string * value) :=
  match assoc k kvs with
  | Some _ => kvs
  | None => dict_set k v kvs
  end.

(** The metadata of the chunk of index [i]. *)
Definition chunk_metadata (lib : Library) (initial_metadata : list (string * value))
    (doc_hash_base doc_type : string) (total_chunks i : nat) : list (string * value) :=
  let chunk_id_str := String.substring 0 16 doc_hash_base +:+ "-" +:+ format_04d i in
  dict_set "processing_timestamp" (VStr (now_isoformat lib i))
    (dict_set "document_type" (VStr doc_type)
       (dict_set "total_chunks" (VInt (Z.of_nat total_chunks))
          (dict_set "chunk_number" (VInt (Z.of_nat i))
             (dict_set "chunk_id" (VStr (uuid5_dns lib chunk_id_str))
                initial_metadata)))).

(** [for i, chunk_text in enumerate(text_chunks): ...], from index [i] on. *)
Fixpoint chunk_documents (lib : Library) (initial_metadata : list (string * value))
    (doc_hash_base doc_type : string) (total_chunks i : nat)
    (text_chunks : list string) : list Document :=
  match text_chunks with
  | [] => []
  | chunk_text :: rest =>
      let later :=
        chunk_documents lib initial_metadata doc_hash_base doc_type total_chunks (S i) rest in
      if String.eqb (strip lib chunk_text) "" then later
      else {| page_content := chunk_text;
              metadata := chunk_metadata lib initial_metadata doc_hash_base doc_type
                            total_chunks i |} :: later
  end.

(** [process_document(content, initial_metadata)]: the documents, the
    caller's metadata dictionary after the call (the method may add a key to
    it), and the log. *)
Definition process_document (lib : Library) (content : value)
    (initial_metadata : option (list (string * value)))
  : list Document * option (list (string * value)) * list log_record :=
  match content with
  | VStr text =>
      if String.eqb text "" then
        ([], initial_metadata,
         [Warning "process_document received empty or invalid content."])
      else
        let unknown := VStr ("unknown_source_" +:+ uuid4 lib) in
        let '(local_metadata, callers_metadata, l0) :=
          match initial_metadata with
          | None => (setdefault "source" unknown [], None, true)
          | Some [] => (setdefault "source" unknown [], Some [], true)
          | Some kvs =>
              match assoc "source" kvs with
              | Some _ => (kvs, Some kvs, false)
              | None =>
                  (setdefault "source" unknown kvs,
                   Some (setdefault "source" unknown kvs), true)
              end
          end in
        let source := str (default (VStr "unknown") (assoc "source" local_metadata)) in
        let l1 :=
          (if l0 : bool
           then [Warning "process_document received insufficient initial_metadata (missing 'source')."]
           else [])
          ++ [Info ("Processing document: " +:+ source +:+ ", length: "
                    +:+ pretty (String.length text))] in
        let doc_type := _detect_document_type lib text in
        match split_text lib text with
        | Raise e =>
            ([], callers_metadata,
             l1 ++ [Error ("Failed to split text for document " +:+ source
                           +:+ ": " +:+ exn_msg e)])
        | Ok text_chunks =>
            let doc_hash_base := md5_hexdigest lib (source +:+ "_" +:+ text) in
            let processed_docs :=
              chunk_documents lib local_metadata doc_hash_base doc_type
                (length text_chunks) 0 text_chunks in
            (processed_docs, callers_metadata,
             l1 ++ [ Info ("Split document into " +:+ pretty (length text_chunks)
                           +:+ " chunks.");
                     Info ("Successfully processed document " +:+ source +:+ " into "
                           +:+ pretty (length processed_docs) +:+ " chunks.") ])
        end
  | _ =>
      ([], initial_metadata,
       [Warning "process_document received empty or invalid content."])
  end.

End DocumentProcessor.

(** ** Conditions on the chunks of a document *)

Module Chunks.
Import Py DocumentProcessor.





(** [chunk_number] of a document. *)
Definition chunk_number (doc : Document) : option value :=
  assoc "chunk_number" (metadata doc).

(** A splitter that cuts at every line break, a strip that knows the space
    and the line break only, and fixed answers for the rest. *)
Fixpoint lines_from (current : string) (s : string) : list string :=
  match s with
  | EmptyString => [current]
  | String c rest =>
      if Ascii.eqb c (ascii_of_nat 10) then current :: lines_from "" rest
      else lines_from (current +:+ String c EmptyString) rest
  end.

Fixpoint strip_left (s : string) : string :=
  match s with
  | String c rest =>
      if (Ascii.eqb c " " || Ascii.eqb c (ascii_of_nat 10))%bool then strip_left rest else s
  | EmptyString => EmptyString
  end.

Definition line_library : Library :=
  {| split_text := fun s => Ok (lines_from "" s);
     strip := strip_left;
     pattern_search := fun doc_type _ => String.eqb doc_type "policy";
     md5_hexdigest := fun _ => "0123456789abcdef0123456789abcdef";
     uuid5_dns := fun s => "uuid5:" +:+ s;
     uuid4 := "00000000-0000-4000-8000-000000000000";
     now_isoformat := fun _ => "2025-01-01T00:00:00" |}.

End Chunks.

(** * Properties *)

(** ** The state and its updates *)

Module StateFacts.
Import Py State.

Lemma eq_str_true v s : eq_str v s = true <-> v = VStr s.
Proof.
  destruct v; simpl; try (split; [discriminate | intros [=]]).
  rewrite String.eqb_eq. split; [intros -> | intros [=]]; done.
Qed.

Lemma eq_str_false v s : eq_str v s = false <-> v ≠ VStr s.
Proof.
  rewrite <- eq_str_true. destruct (eq_str v s); split; congruence.
Qed.

Lemma in_strs_true v names :
  in_strs v names = true <-> exists s, In s names /\ v = VStr s.
Proof.
  unfold in_strs. rewrite existsb_exists.
  split; intros (s & Hin & H); exists s; split; auto; by apply eq_str_true.
Qed.

(** A declared key reads the update first and the old state otherwise. *)
Lemma apply_update_declared state upd k :
  k ∈ agent_state_keys ->
  fields (apply_update state upd) !! k =
    match upd !! k with Some v => Some v | None => fields state !! k end.
Proof.
  intros Hk. unfold apply_update; simpl.
  rewrite lookup_union, map_lookup_filter.
  destruct (upd !! k) as [v|] eqn:Hu; simpl.
  - rewrite option_guard_True by exact Hk. simpl.
    by destruct (fields state !! k).
  - by destruct (fields state !! k).
Qed.

(** A key absent from the update keeps its value. *)
Lemma apply_update_absent state upd k :
  upd !! k = None ->
  fields (apply_update state upd) !! k = fields state !! k.
Proof.
  intros Hu. unfold apply_update; simpl.
  rewrite lookup_union, map_lookup_filter, Hu. simpl.
  by destruct (fields state !! k).
Qed.

Lemma apply_update_empty state : apply_update state ∅ = state.
Proof.
  destruct state as [ms fs]. unfold apply_update; simpl.
  f_equal. rewrite map_filter_empty. apply (left_id_L ∅ (∪)).
Qed.

Lemma state_get_update_some state upd k v d :
  k ∈ agent_state_keys -> upd !! k = Some v ->
  state_get (apply_update state upd) k d = v.
Proof.
  intros Hk Hu. unfold state_get.
  by rewrite apply_update_declared, Hu.
Qed.

Lemma state_get_update_none state upd k d :
  upd !! k = None ->
  state_get (apply_update state upd) k d = state_get state k d.
Proof.
  intros Hu. unfold state_get. by rewrite apply_update_absent.
Qed.

Lemma declared_key k :
  bool_decide (k ∈ agent_state_keys) = true -> k ∈ agent_state_keys.
Proof. apply bool_decide_eq_true_1. Qed.

End StateFacts.

Ltac declared := apply StateFacts.declared_key; vm_compute; reflexivity.

(** ** Steps of the graph runtime *)

Module GraphFacts.
Import Py State Graph.

Lemma run_END n g s : run n g END s = ret s.
Proof. by destruct n. Qed.

Lemma node_outcome f s u t :
  f s = (Ok u, t) -> node f s = (Ok (apply_update s u), t).
Proof.
  intros H. unfold node, Py.bind. rewrite H. simpl. by rewrite app_nil_r.
Qed.

Lemma next_node_edge g src s target :
  assoc src (edges g) = Some (Edge target) -> next_node g src s = Ok target.
Proof. intros H. unfold next_node. by rewrite H. Qed.

Lemma next_node_conditional g src path path_map s r target :
  assoc src (edges g) = Some (ConditionalEdges path path_map) ->
  path s = VStr r ->
  assoc r path_map = Some target ->
  next_node g src s = Ok target.
Proof. intros H1 H2 H3. unfold next_node. by rewrite H1, H2, H3. Qed.

(** One step of the runtime from a node that is not the end marker. *)
Lemma run_step n g cur s f s' t target :
  String.eqb cur END = false ->
  assoc cur (nodes g) = Some f ->
  f s = (Ok s', t) ->
  next_node g cur s' = Ok target ->
  run (S n) g cur s =
    let '(r, t') := run n g target s' in (r, NodeRun cur :: t ++ t').
Proof.
  intros H1 H2 H3 H4. simpl. rewrite H1, H2. unfold tell, lift.
  cbn [Py.bind]. rewrite H3. cbn [Py.bind]. rewrite H4.
  by destruct (run n g target s') as [r t'].
Qed.

(** The last step of a run: the node's edge leads to the end marker. *)
Lemma run_last n g cur s f s' t :
  String.eqb cur END = false ->
  assoc cur (nodes g) = Some f ->
  f s = (Ok s', t) ->
  next_node g cur s' = Ok END ->
  run (S n) g cur s = (Ok s', NodeRun cur :: t).
Proof.
  intros H1 H2 H3 H4.
  rewrite (run_step _ _ _ _ _ _ _ _ H1 H2 H3 H4), run_END.
  simpl. by rewrite app_nil_r.
Qed.

Lemma invoke_start g s first :
  next_node g START s = Ok first ->
  invoke g s = run recursion_limit g first s.
Proof.
  intros H. unfold invoke, lift. cbn [Py.bind]. rewrite H.
  by destruct (run _ _ _ _).
Qed.

End GraphFacts.

(** ** The patient sub-workflow *)

Module PatientFacts.
Import Py State Collab Graph PatientSupervisor Conditions Examples StateFacts GraphFacts.

Lemma type_human m : String.eqb (type m) "human" = is_human m.
Proof. unfold type, is_human. by destruct (msg_class m). Qed.

(** The analysis step never raises. *)
Lemma analyze_total env s :
  exists u t, analyze_patient_query env s = (Ok u, t).
Proof.
  unfold analyze_patient_query.
  destruct (String.eqb _ ""); [by eexists _, _|].
  unfold try_or_return, try_except; simpl.
  destruct (patient_chain env _) as [[]|e]; simpl; [|by eexists _, _].
  destruct (patient_invoke env _ _) as [resp|e]; simpl; [|by eexists _, _].
  destruct (get resp "response_text" _) as [rt|e]; simpl; [|by eexists _, _].
  destruct (get resp "reuqest_scheduling" _) as [rs|e]; simpl; [|by eexists _, _].
  destruct (slice_to 100 rt) as [x|e]; simpl; by eexists _, _.
Qed.

(** It writes nothing under the handoff key. *)
Lemma analyze_keeps_handoff env s u t :
  analyze_patient_query env s = (Ok u, t) ->
  u !! "next_supervisor_required" = None.
Proof.
  unfold analyze_patient_query.
  destruct (String.eqb _ ""); [by intros [= <- _]|].
  unfold try_or_return, try_except; simpl.
  destruct (patient_chain env _) as [[]|e]; simpl; [|by intros [= <- _]].
  destruct (patient_invoke env _ _) as [resp|e]; simpl; [|by intros [= <- _]].
  destruct (get resp "response_text" _) as [rt|e]; simpl; [|by intros [= <- _]].
  destruct (get resp "reuqest_scheduling" _) as [rs|e]; simpl; [|by intros [= <- _]].
  destruct (slice_to 100 rt) as [x|e]; simpl; by intros [= <- _].
Qed.

Lemma decide_next_node env s1 :
  next_node (build_patient_supervisor_graph env) "analyze_patient_query" s1
  = Ok (decide_next_step s1).
Proof.
  eapply next_node_conditional; [reflexivity | reflexivity |].
  unfold decide_next_step. by destruct (truthy _).
Qed.

(** An execution is the analysis step followed by the branch that
    [decide_next_step] picks on the analysed state. *)
Lemma invoke_patient_graph env s s1 t1 :
  node (analyze_patient_query env) s = (Ok s1, t1) ->
  invoke (build_patient_supervisor_graph env) s =
    let '(r, t2) := run 24 (build_patient_supervisor_graph env) (decide_next_step s1) s1 in
    (r, NodeRun "analyze_patient_query" :: t1 ++ t2).
Proof.
  intros H.
  rewrite (invoke_start _ _ "analyze_patient_query") by reflexivity.
  unfold recursion_limit.
  erewrite run_step; [reflexivity | reflexivity | reflexivity | exact H |].
  apply decide_next_node.
Qed.

Lemma run_prepare env s1 n :
  run (S n) (build_patient_supervisor_graph env) "prepare_for_scheduling" s1 =
  (Ok (apply_update s1
         {[ "final_output" :=
              state_get s1 "patient_response_text" (VStr "Okay lets look scheduling");
            "next_supervisor_required" := VStr "supervisor_scheduling" ]}),
   [NodeRun "prepare_for_scheduling"]).
Proof. by eapply run_last. Qed.

Lemma run_finish env s1 n :
  run (S n) (build_patient_supervisor_graph env) "finish_conversation" s1 =
  (Ok (apply_update s1
         {[ "final_output" :=
              state_get s1 "patient_response_text" (VStr "Sorry Im not sure how to respond") ]}),
   [NodeRun "finish_conversation"]).
Proof. by eapply run_last. Qed.

(** C3, amended. Every execution of the patient sub-workflow returns. When
    [request_scheduling] is true at the decide step, the final state carries
    the handoff to ["supervisor_scheduling"] and its [final_output] is the
    response text of the state (the fixed text when the state has none);
    otherwise the sub-workflow does not write the handoff field, which keeps
    the value it had on entry. *)
Theorem patient_subworkflow_outcome env s :
  exists s1 t1,
    node (analyze_patient_query env) s = (Ok s1, t1) /\
    if truthy (state_get s1 "request_scheduling" (VBool false)) then
      exists s2,
        invoke (build_patient_supervisor_graph env) s =
          (Ok s2, NodeRun "analyze_patient_query" :: t1 ++ [NodeRun "prepare_for_scheduling"])
        /\ state_get s2 "next_supervisor_required" VNone = VStr "supervisor_scheduling"
        /\ state_get s2 "final_output" VNone =
             state_get s1 "patient_response_text" (VStr "Okay lets look scheduling")
    else
      exists s2,
        invoke (build_patient_supervisor_graph env) s =
          (Ok s2, NodeRun "analyze_patient_query" :: t1 ++ [NodeRun "finish_conversation"])
        /\ fields s2 !! "next_supervisor_required" = fields s !! "next_supervisor_required"
        /\ state_get s2 "final_output" VNone =
             state_get s1 "patient_response_text" (VStr "Sorry Im not sure how to respond").
Proof.
  destruct (analyze_total env s) as (u & t1 & Hu).
  pose proof (node_outcome _ _ _ _ Hu) as Hnode.
  exists (apply_update s u), t1. split; [exact Hnode|].
  rewrite (invoke_patient_graph _ _ _ _ Hnode).
  unfold decide_next_step.
  destruct (truthy _).
  - rewrite run_prepare. eexists. split; [reflexivity|]. split.
    + by apply state_get_update_some; [declared|].
    + by apply state_get_update_some; [declared|].
  - rewrite run_finish. eexists. split; [reflexivity|]. split.
    + rewrite apply_update_absent by reflexivity.
      apply apply_update_absent. eapply analyze_keeps_handoff, Hu.
    + by apply state_get_update_some; [declared|].
Qed.

(** C3 as stated fails: the answer below makes [request_scheduling] true at
    the decide step, the handoff is set, and [final_output] is empty. *)
Lemma scheduling_with_empty_output :
  let env := answering (routing "supervisor_patient_general") (misspelt_answer "") in
  let s := initial_state "I need an appointment" "patient" in
  exists s1 t1 s2 t2,
    node (analyze_patient_query env) s = (Ok s1, t1)
    /\ truthy (state_get s1 "request_scheduling" (VBool false)) = true
    /\ invoke (build_patient_supervisor_graph env) s = (Ok s2, t2)
    /\ state_get s2 "next_supervisor_required" VNone = VStr "supervisor_scheduling"
    /\ state_get s2 "final_output" VNone = VStr "".
Proof.
  eexists _, _, _, _. repeat split; vm_compute; reflexivity.
Qed.

(** C7. With no user query the analysis step returns at once the fixed
    apology with [request_scheduling] false; it neither builds nor calls
    the model, and it does not raise. *)
Theorem analyze_without_query env s :
  no_user_query s ->
  analyze_patient_query env s =
    (Ok {[ "patient_response_text" :=
             VStr "I'm sorry, I didnt quite catch that. could you please repeat your question?";
           "request_scheduling" := VBool false ]}, []).
Proof.
  unfold no_user_query, latest_query, analyze_patient_query.
  destruct (last_message (default [] (messages s))) as [m|]; [|reflexivity].
  rewrite type_human. by intros ->.
Qed.

Lemma analyze_without_query_witness :
  no_user_query (initial_state "" "patient") /\
  analyze_patient_query (answering unreachable unreachable) (initial_state "" "patient") =
    (Ok {[ "patient_response_text" :=
             VStr "I'm sorry, I didnt quite catch that. could you please repeat your question?";
           "request_scheduling" := VBool false ]}, []).
Proof.
  split; [reflexivity | apply analyze_without_query; reflexivity].
Defined.

(** An answer that carries the misspelt key with a true value makes the
    update's [request_scheduling] true, and the run takes
    [prepare_for_scheduling]. *)
Lemma misspelt_key_requests_scheduling :
  let env := answering (routing "supervisor_patient_general")
               (misspelt_answer "Okay, I can help you with scheduling.") in
  let s := initial_state "I need an appointment" "patient" in
  exists u t s2,
    analyze_patient_query env s = (Ok u, t)
    /\ u !! "request_scheduling" = Some (VBool true)
    /\ invoke (build_patient_supervisor_graph env) s =
         (Ok s2, NodeRun "analyze_patient_query" :: t ++ [NodeRun "prepare_for_scheduling"]).
Proof.
  eexists _, _, _. repeat split; vm_compute; reflexivity.
Qed.

End PatientFacts.

(** ** The main graph *)

Module OrchestratorFacts.
Import Py State Collab Graph Orchestrator Conditions Examples StateFacts GraphFacts.

Lemma nonempty_append (a b : string) : a ≠ "" -> a +:+ b ≠ "".
Proof. destruct a; [done | discriminate]. Qed.

(** The error node ends the run with a message that is never empty. *)
Lemma run_error_node env s n :
  exists s' msg,
    run (S n) (build_main_orchestrator_graph env) "handle_error_node" s =
      (Ok s', [NodeRun "handle_error_node"])
    /\ state_get s' "final_output" VNone = VStr msg
    /\ msg ≠ "".
Proof.
  eexists _, _. split; [by eapply run_last|]. split.
  - by apply state_get_update_some; [declared|].
  - by apply nonempty_append.
Qed.

(** After the handoff check the signal is not set, and the run ends. *)
Lemma handoff_check_clears s :
  exists s1,
    handoff_check_node s = (Ok s1, [])
    /\ truthy (state_get s1 "next_supervisor_required" VNone) = false
    /\ (truthy (state_get s "next_supervisor_required" VNone) = true ->
        state_get s1 "next_supervisor_required" VNone = VNone).
Proof.
  unfold handoff_check_node.
  destruct (truthy (state_get s "next_supervisor_required" VNone)) eqn:Hp.
  - exists (apply_update s {[ "next_supervisor_required" := VNone ]}). split.
    + apply node_outcome. unfold check_supervisor_handoff. by rewrite Hp.
    + rewrite (state_get_update_some _ _ _ VNone); [done | declared | reflexivity].
  - exists s. split.
    + rewrite <- (apply_update_empty s) at 2.
      apply node_outcome. unfold check_supervisor_handoff. by rewrite Hp.
    + done.
Qed.

Lemma route_when_not_pending s :
  truthy (state_get s "next_supervisor_required" VNone) = false ->
  route_after_handoff_check s = VStr "output_stage".
Proof. intros H. unfold route_after_handoff_check. by rewrite H. Qed.

Lemma run_handoff_check env s n :
  exists s1,
    handoff_check_node s = (Ok s1, [])
    /\ run (S n) (build_main_orchestrator_graph env) "check_supervisor_handoff" s =
         (Ok s1, [NodeRun "check_supervisor_handoff"]).
Proof.
  destruct (handoff_check_clears s) as (s1 & Hnode & Hclear & _).
  exists s1. split; [exact Hnode|].
  eapply run_last; [reflexivity | reflexivity | exact Hnode |].
  eapply next_node_conditional;
    [reflexivity | by apply route_when_not_pending | reflexivity].
Qed.

(** C5. When the handoff check reads a set signal it writes [None] over it
    in that same step, in the state of the run and in the node's own state
    object; a second handoff check then finds no signal, changes nothing
    and ends the run. *)
Theorem handoff_consumed_once env s n :
  handoff_pending s ->
  exists s1,
    handoff_check_node s = (Ok s1, [])
    /\ state_get s1 "next_supervisor_required" VNone = VNone
    /\ state_get (fst (check_supervisor_handoff s)) "next_supervisor_required" VNone = VNone
    /\ check_supervisor_handoff s1 = (s1, ∅)
    /\ handoff_check_node s1 = (Ok s1, [])
    /\ route_after_handoff_check s1 = VStr "output_stage"
    /\ run (S n) (build_main_orchestrator_graph env) "check_supervisor_handoff" s =
         (Ok s1, [NodeRun "check_supervisor_handoff"])
    /\ run (S n) (build_main_orchestrator_graph env) "check_supervisor_handoff" s1 =
         (Ok s1, [NodeRun "check_supervisor_handoff"]).
Proof.
  unfold handoff_pending. intros Hp.
  destruct (handoff_check_clears s) as (s1 & Hnode & Hclear & Hnone).
  assert (Hchk : check_supervisor_handoff s1 = (s1, ∅)).
  { unfold check_supervisor_handoff. by rewrite Hclear. }
  assert (Hnode1 : handoff_check_node s1 = (Ok s1, [])).
  { unfold handoff_check_node.
    erewrite node_outcome by (rewrite Hchk; reflexivity).
    by rewrite apply_update_empty. }
  exists s1. repeat split; auto.
  - unfold check_supervisor_handoff. rewrite Hp. simpl.
    unfold state_get, state_set. simpl. by rewrite lookup_insert_eq.
  - by apply route_when_not_pending.
  - eapply run_last; [reflexivity | reflexivity | exact Hnode |].
    eapply next_node_conditional;
      [reflexivity | by apply route_when_not_pending | reflexivity].
  - eapply run_last; [reflexivity | reflexivity | exact Hnode1 |].
    eapply next_node_conditional;
      [reflexivity | by apply route_when_not_pending | reflexivity].
Qed.

Lemma handoff_consumed_once_witness :
  let env := answering unreachable unreachable in
  let s := state_set blank_state "next_supervisor_required" (VStr "supervisor_scheduling") in
  handoff_pending s /\
  exists s1,
    handoff_check_node s = (Ok s1, [])
    /\ state_get s1 "next_supervisor_required" VNone = VNone
    /\ state_get (fst (check_supervisor_handoff s)) "next_supervisor_required" VNone = VNone
    /\ check_supervisor_handoff s1 = (s1, ∅)
    /\ handoff_check_node s1 = (Ok s1, [])
    /\ route_after_handoff_check s1 = VStr "output_stage"
    /\ run 1 (build_main_orchestrator_graph env) "check_supervisor_handoff" s =
         (Ok s1, [NodeRun "check_supervisor_handoff"])
    /\ run 1 (build_main_orchestrator_graph env) "check_supervisor_handoff" s1 =
         (Ok s1, [NodeRun "check_supervisor_handoff"]).
Proof.
  split; [reflexivity | apply handoff_consumed_once; reflexivity].
Defined.

(** C1, on the code. Once a supervisor has set the signal to
    ["supervisor_scheduling"], the handoff check clears it and the run ends
    there: the router after the check reads the cleared field, so the
    scheduling supervisor is not entered. *)
Theorem handoff_to_scheduling_not_taken env s n :
  exists s1,
    run (S n) (build_main_orchestrator_graph env) "check_supervisor_handoff"
        (state_set s "next_supervisor_required" (VStr "supervisor_scheduling")) =
      (Ok s1, [NodeRun "check_supervisor_handoff"])
    /\ state_get s1 "next_supervisor_required" VNone = VNone.
Proof.
  set (s0 := state_set s _ _).
  destruct (handoff_check_clears s0) as (s1 & Hnode & Hclear & Hnone).
  destruct (run_handoff_check env s0 n) as (s1' & Hnode' & Hrun).
  rewrite Hnode in Hnode'. injection Hnode' as <-.
  exists s1. split; [exact Hrun|].
  apply Hnone. unfold s0, state_get, state_set. simpl.
  by rewrite lookup_insert_eq.
Qed.

(** A whole turn in which the patient sub-workflow asks for the handoff:
    no scheduling supervisor runs after the handoff check. *)
Lemma handoff_turn_ends_after_check :
  let env := answering (routing "supervisor_patient_general")
               (misspelt_answer "Okay, I can help you with scheduling.") in
  let s := initial_state "I need an appointment" "patient" in
  exists s',
    invoke (build_main_orchestrator_graph env) s =
      (Ok s',
       [ NodeRun "patient_intent_router"; LlmInit "router";
         LlmInvoke "router" "I need an appointment";
         NodeRun "supervisor_patient_general";
         NodeRun "analyze_patient_query"; LlmInit "patient_analysis";
         LlmInvoke "patient_analysis" "I need an appointment";
         NodeRun "prepare_for_scheduling";
         NodeRun "check_supervisor_handoff" ])
    /\ state_get s' "next_supervisor_required" (VStr "absent") = VNone
    /\ state_get s' "final_output" VNone = VStr "Okay, I can help you with scheduling.".
Proof.
  eexists. repeat split; vm_compute; reflexivity.
Qed.

Lemma route_unknown_role s :
  unknown_role s -> route_logic_by_role s = "handle_error_node".
Proof.
  intros [Hp Hd]. unfold route_logic_by_role.
  apply eq_str_false in Hp, Hd. by rewrite Hp, Hd.
Qed.

(** C8. A run whose role is neither patient nor doctor goes from the start
    straight to the error node and ends there with a non-empty
    [final_output]; the trace holds that single node, so no classifier is
    built or called. *)
Theorem unknown_role_error_terminal env s :
  unknown_role s ->
  exists s' msg,
    invoke (build_main_orchestrator_graph env) s = (Ok s', [NodeRun "handle_error_node"])
    /\ state_get s' "final_output" VNone = VStr msg
    /\ msg ≠ "".
Proof.
  intros Hrole.
  rewrite (invoke_start _ _ "handle_error_node").
  - apply run_error_node.
  - eapply next_node_conditional;
      [reflexivity | simpl; by rewrite route_unknown_role | reflexivity].
Qed.

Lemma unknown_role_error_terminal_witness :
  unknown_role blank_state /\
  exists s' msg,
    invoke (build_main_orchestrator_graph (answering unreachable unreachable)) blank_state =
      (Ok s', [NodeRun "handle_error_node"])
    /\ state_get s' "final_output" VNone = VStr msg
    /\ msg ≠ "".
Proof.
  assert (H : unknown_role blank_state) by (split; discriminate).
  split; [exact H | apply unknown_role_error_terminal; exact H].
Defined.

(** The routing step never raises. *)
Lemma determine_intent_total env s system_prompt valid :
  exists u t, _determine_intent_llm env s system_prompt valid = (Ok u, t).
Proof.
  unfold _determine_intent_llm.
  destruct (String.eqb _ ""); [by eexists _, _|].
  unfold try_or_return, try_except; simpl.
  destruct (get_llm env "router"); simpl; [|by eexists _, _].
  destruct (router_chain env _) as [[]|e]; simpl; [|by eexists _, _].
  destruct (router_invoke env _ _) as [resp|e]; simpl; [|by eexists _, _].
  destruct (get resp "supervisor" _) as [sup|e]; simpl; [|by eexists _, _].
  destruct (get resp "reasoning" _) as [rs|e]; simpl; [|by eexists _, _].
  destruct (negb (in_strs sup valid)); simpl; by eexists _, _.
Qed.

(** Both routers send a fallback decision to the error node. *)
Lemma fallback_routes env s u :
  u !! "supervisor_name" = Some (VStr "handle_error_node") ->
  next_node (build_main_orchestrator_graph env) "patient_intent_router" (apply_update s u)
    = Ok "handle_error_node"
  /\ next_node (build_main_orchestrator_graph env) "doctor_intent_router" (apply_update s u)
    = Ok "handle_error_node".
Proof.
  intros Hu.
  assert (state_get (apply_update s u) "supervisor_name" VNone = VStr "handle_error_node")
    by (apply state_get_update_some; [declared | exact Hu]).
  split; (eapply next_node_conditional; [reflexivity | eassumption | reflexivity]).
Qed.

Lemma fallback_decision env s system_prompt valid :
  gateway_failure env s system_prompt valid ->
  exists u t d,
    _determine_intent_llm env s system_prompt valid = (Ok u, t)
    /\ u !! "supervisor_name" = Some (VStr "handle_error_node")
    /\ u !! "route_error" = Some (VStr d).
Proof.
  unfold gateway_failure, latest_query, _determine_intent_llm.
  set (q := match last_message _ with Some _ => _ | None => _ end).
  intros Hfail.
  destruct (String.eqb q ""); [by eexists _, _, _|].
  unfold try_or_return, try_except; simpl.
  destruct (get_llm env "router"); simpl; [|by eexists _, _, _].
  destruct (router_chain env _) as [[]|e]; simpl; [|by eexists _, _, _].
  destruct Hfail as [Hfail|[[e Hfail]|Hfail]]; [done | done |].
  destruct (router_invoke env _ _) as [resp|e]; simpl; [|by eexists _, _, _].
  destruct resp as [| | | | |kvs]; simpl; try by eexists _, _, _.
  simpl in Hfail. rewrite Hfail. simpl. by eexists _, _, _.
Qed.

(** A whole turn with an unreachable classifier ends in the error node. *)
Lemma unreachable_classifier_turn :
  let env := answering unreachable unreachable in
  exists s',
    invoke (build_main_orchestrator_graph env) (initial_state "I have a headache" "patient") =
      (Ok s',
       [ NodeRun "patient_intent_router"; LlmInit "router";
         LlmInvoke "router" "I have a headache"; NodeRun "handle_error_node" ]).
Proof. eexists. vm_compute. reflexivity. Qed.

(** C2, on the code. The classifier answers ["supervisor_image_analysis"]
    for a doctor. The edge table of the doctor router has that entry, but
    the list of names the router accepts does not: the step falls back and
    the run ends in the error node, the image supervisor is not entered. *)
Theorem image_analysis_rejected :
  let env := answering (routing "supervisor_image_analysis") unreachable in
  let s := initial_state "what does this x-ray show?" "doctor" in
  exists u s',
    doctor_intent_router env s =
      (Ok u, [ LlmInit "router"; LlmInvoke "router" "what does this x-ray show?" ])
    /\ u !! "supervisor_name" = Some (VStr "handle_error_node")
    /\ u !! "route_error" =
         Some (VStr "Invalid routing target for role 'doctor': supervisor_image_analysis")
    /\ invoke (build_main_orchestrator_graph env) s =
         (Ok s',
          [ NodeRun "doctor_intent_router"; LlmInit "router";
            LlmInvoke "router" "what does this x-ray show?";
            NodeRun "handle_error_node" ]).
Proof.
  eexists _, _. repeat split; vm_compute; reflexivity.
Qed.

(** The two names the doctor router accepts are dispatched to their
    supervisor, then to the handoff check, where the run ends. *)
Lemma doctor_dispatch env s kvs c :
  state_get s "user_role" (VStr "unknown") = VStr "doctor" ->
  latest_query s ≠ "" ->
  get_llm env "router" = true ->
  router_chain env (DOCTOR_INTENT_ROUTER_PROMPT (settings env)) = Ok tt ->
  router_invoke env (DOCTOR_INTENT_ROUTER_PROMPT (settings env)) (latest_query s)
    = Ok (VDict kvs) ->
  assoc "supervisor" kvs = Some (VStr c) ->
  c = "supervisor_doctor_general" \/ c = "supervisor_summarization" ->
  exists s',
    invoke (build_main_orchestrator_graph env) s =
      (Ok s',
       [ NodeRun "doctor_intent_router"; LlmInit "router";
         LlmInvoke "router" (latest_query s); NodeRun c;
         NodeRun "check_supervisor_handoff" ]).
Proof.
  intros Hrole Hq Hllm Hchain Hinv Hsup Hc.
  assert (Hrouter : doctor_intent_router env s =
            (Ok {[ "supervisor_name" := VStr c ]},
             [LlmInit "router"; LlmInvoke "router" (latest_query s)])).
  { unfold doctor_intent_router, _determine_intent_llm.
    change (match last_message _ with Some _ => _ | None => _ end)
      with (latest_query s).
    apply String.eqb_neq in Hq. rewrite Hq.
    unfold try_or_return, try_except; simpl.
    rewrite Hllm; simpl. rewrite Hchain; simpl. rewrite Hinv; simpl.
    rewrite Hsup; simpl. by destruct Hc as [-> | ->]. }
  pose proof (node_outcome _ _ _ _ Hrouter) as Hnode.
  set (s1 := apply_update s {[ "supervisor_name" := VStr c ]}) in *.
  assert (Hname : state_get s1 "supervisor_name" VNone = VStr c)
    by (apply state_get_update_some; [declared | reflexivity]).
  rewrite (invoke_start _ _ "doctor_intent_router"); cycle 1.
  { eapply next_node_conditional;
      [reflexivity
      | simpl; unfold route_logic_by_role; by rewrite Hrole
      | reflexivity]. }
  unfold recursion_limit.
  erewrite run_step; [| reflexivity | reflexivity | exact Hnode |]; cycle 1.
  { eapply next_node_conditional; [reflexivity | exact Hname |].
    by destruct Hc as [-> | ->]. }
  destruct Hc as [-> | ->].
  - erewrite run_step; [| reflexivity | reflexivity | by apply node_outcome | reflexivity].
    edestruct run_handoff_check as (s2 & _ & ->). by eexists.
  - erewrite run_step; [| reflexivity | reflexivity | by apply node_outcome | reflexivity].
    edestruct run_handoff_check as (s2 & _ & ->). by eexists.
Qed.

End OrchestratorFacts.

(** ** The capability registry *)

Module MCPFacts.
Import Py MCP MCPManager Conditions Examples.
Local Open Scope mcp_scope.

Lemma no_active_filter configs :
  no_active_provider configs ->
  filter (fun kv : string * ServerConfig => enabled kv.2 = true) configs = ∅.
Proof.
  intros H. apply map_empty. intros i.
  apply map_lookup_filter_None. right. intros config Hc. simpl.
  rewrite (H i config Hc). discriminate.
Qed.

(** A stopped manager without an enabled server stays stopped on start. *)
Lemma start_stopped srv self :
  no_active_provider (_raw_server_configs self) ->
  _is_running self = false ->
  exists l,
    start_client srv self =
      (Ok tt,
       {| _raw_server_configs := _raw_server_configs self;
          _active_server_configs := ∅;
          _client := None;
          _tools := [];
          _is_running := false |}, l).
Proof.
  intros Hno Hrun.
  unfold start_client, MCP.bind, read, log, assign, reset. simpl.
  rewrite Hrun. simpl. rewrite (no_active_filter _ Hno).
  destruct (decide _) as [_|Hne]; [|done]. simpl.
  by eexists.
Qed.

(** Without an enabled server, a manager is stopped in every state it
    reaches. *)
Lemma reachable_stopped configs self :
  no_active_provider configs -> reachable configs self -> stopped configs self.
Proof.
  intros Hno. induction 1 as [|srv self r self' l _ IH Hstart|srv self r self' l _ IH Hstop].
  - done.
  - destruct IH as (Hraw & Hc & Ht & Hr).
    destruct (start_stopped srv self) as [l' Hs]; [by rewrite Hraw | done |].
    rewrite Hs in Hstart. injection Hstart as <- <- <-. by rewrite Hraw.
  - destruct IH as (Hraw & Hc & Ht & Hr).
    unfold stop_client, MCP.bind, read, log in Hstop. simpl in Hstop.
    rewrite Hr in Hstop. simpl in Hstop.
    injection Hstop as <- <- <-. done.
Qed.

(** C9. With no enabled server in the configuration, [start_client]
    returns without raising from every state the manager can be in, and
    leaves it stopped: [is_running] answers false and the list of tools is
    empty. *)
Theorem start_without_active_provider configs srv self :
  no_active_provider configs ->
  reachable configs self ->
  exists self' l,
    start_client srv self = (Ok tt, self', l)
    /\ is_running self' = (Ok false, self', [])
    /\ _tools self' = []
    /\ get_all_tools self' =
         (Ok [], self', [Warning "MCP Client not running. Cannot get tools."]).
Proof.
  intros Hno Hreach.
  destruct (reachable_stopped _ _ Hno Hreach) as (Hraw & Hc & Ht & Hr).
  destruct (start_stopped srv self) as [l Hs]; [by rewrite Hraw | done |].
  eexists _, l. split; [exact Hs|]. by repeat split.
Qed.

Lemma no_active_disabled_config : no_active_provider disabled_config.
Proof.
  intros name config H. unfold disabled_config in H.
  apply lookup_singleton_Some in H as [_ <-]. reflexivity.
Qed.

Lemma start_without_active_provider_witness :
  no_active_provider disabled_config
  /\ reachable disabled_config (__init__ disabled_config)
  /\ exists self' l,
       start_client no_servers (__init__ disabled_config) = (Ok tt, self', l)
       /\ is_running self' = (Ok false, self', [])
       /\ _tools self' = []
       /\ get_all_tools self' =
            (Ok [], self', [Warning "MCP Client not running. Cannot get tools."]).
Proof.
  split; [exact no_active_disabled_config|].
  split; [apply reach_init|].
  apply (start_without_active_provider disabled_config no_servers);
    [exact no_active_disabled_config | apply reach_init].
Defined.

Lemma name_in_elem required t : name_in required t = true <-> name t ∈ required.
Proof.
  unfold name_in. rewrite existsb_exists, list_elem_of_In. split.
  - intros (n & Hin & Heq). apply String.eqb_eq in Heq. by subst.
  - intros Hin. exists (name t). split; [done | apply String.eqb_refl].
Qed.

Lemma get_all_tools_available self :
  get_all_tools self =
    (Ok (available self), self,
     if _is_running self then []
     else [Warning "MCP Client not running. Cannot get tools."]).
Proof.
  unfold get_all_tools, available, MCP.bind, read, log, ret. simpl.
  by destruct (_is_running self).
Qed.


Lemma NoDup_map_filter {A B} (f : A -> B) (p : A -> bool) (l : list A) :
  NoDup (List.map f l) -> NoDup (List.map f (List.filter p l)).
Proof.
  induction l as [|x l IH]; simpl; [done|].
  rewrite NoDup_cons. intros [Hx Hl].
  destruct (p x); simpl; [|by apply IH].
  apply NoDup_cons. split; [|by apply IH].
  intros Hin. apply Hx.
  rewrite list_elem_of_In in Hin. apply in_map_iff in Hin as (y & Hy & Hin).
  apply filter_In in Hin as [Hin _].
  rewrite list_elem_of_In. apply in_map_iff. by exists y.
Qed.

(** When the requested names are distinct and so are the names of the
    tools, the numbers of returned tools and of requested names agree
    exactly when every requested name is borne by a tool: the warning is
    logged if and only if a name is missing. *)
Lemma lengths_agree_iff_all_found required tools :
  NoDup required ->
  NoDup (List.map name tools) ->
  length (List.filter (name_in required) tools) = length required
  <-> forall n, n ∈ required -> exists t, t ∈ tools /\ name t = n.
Proof.
  intros Hreq Htools.
  set (found := List.map name (List.filter (name_in required) tools)).
  assert (Hlen : length found = length (List.filter (name_in required) tools))
    by apply List.length_map.
  assert (Hnd : NoDup found) by by apply NoDup_map_filter.
  assert (Hsub : found ⊆+ required).
  { apply NoDup_submseteq; [done|]. intros n Hn.
    rewrite list_elem_of_In in Hn. apply in_map_iff in Hn as (t & <- & Ht).
    apply filter_In in Ht as [_ Ht]. by apply name_in_elem. }
  rewrite <- Hlen. split.
  - intros Heq n Hn.
    assert (Hperm : found ≡ₚ required)
      by (apply submseteq_length_Permutation; [done | lia]).
    rewrite <- Hperm, list_elem_of_In in Hn.
    apply in_map_iff in Hn as (t & <- & Ht).
    apply filter_In in Ht as [Ht _]. exists t. by rewrite list_elem_of_In.
  - intros Hall.
    assert (Hsup : required ⊆+ found).
    { apply NoDup_submseteq; [done|]. intros n Hn.
      destruct (Hall n Hn) as (t & Ht & <-).
      rewrite list_elem_of_In. apply in_map_iff. exists t. split; [done|].
      apply filter_In. rewrite <- list_elem_of_In. split; [done|].
      by apply name_in_elem. }
    apply submseteq_length in Hsub, Hsup. lia.
Qed.


(** The filter of the specification's example. *)
Lemma nonexistent_filter :
  get_tools_for_agent (Some ["nonexistent"]) running_manager =
    (Ok [], running_manager, [MissingTools {[ "nonexistent" ]}]).
Proof. vm_compute. reflexivity. Qed.

End MCPFacts.

(** ** Further properties of the patient sub-workflow *)

Module PatientTurns.
Import Py State Collab Graph PatientSupervisor Conditions Turns Examples.
Import StateFacts GraphFacts PatientFacts.

(** The analysis step reads the query the conditions speak of. *)
Lemma analyze_query s :
  match last_message (default [] (messages s)) with
  | Some m => if String.eqb (type m) "human" then content m else ""
  | None => ""
  end = latest_query s.
Proof.
  unfold latest_query. destruct (last_message _) as [m|]; [|done].
  by rewrite type_human.
Qed.

Lemma slice_sliceable v : sliceable v = true -> exists x, slice_to 100 v = Ok x.
Proof. destruct v; simpl; try discriminate; by eexists. Qed.

Lemma slice_not_sliceable v : sliceable v = false -> exists e, slice_to 100 v = Raise e.
Proof. destruct v; simpl; try discriminate; by eexists. Qed.

(** Whatever the step returns, it writes a response text that is a string
    or a list, never [None]. *)
Lemma analyze_response_text env s u t :
  analyze_patient_query env s = (Ok u, t) ->
  exists v, u !! "patient_response_text" = Some v /\ sliceable v = true.
Proof.
  unfold analyze_patient_query.
  destruct (String.eqb _ ""); [intros [= <- _]; by eexists|].
  unfold try_or_return, try_except; simpl.
  destruct (patient_chain env _) as [[]|e]; simpl; [|intros [= <- _]; by eexists].
  destruct (patient_invoke env _ _) as [resp|e]; simpl; [|intros [= <- _]; by eexists].
  destruct (get resp "response_text" _) as [rt|e]; simpl; [|intros [= <- _]; by eexists].
  destruct (get resp "reuqest_scheduling" _) as [rs|e]; simpl; [|intros [= <- _]; by eexists].
  destruct (slice_to 100 rt) as [x|e] eqn:Hs; simpl; intros [= <- _].
  - exists rt. split; [reflexivity|]. by destruct rt.
  - by eexists.
Qed.

(** The patient sub-workflow always returns, and its [final_output] is the
    response text the analysis step wrote: a string or a list, present and
    never [None]. *)
Lemma patient_graph_returns env s :
  exists s2 t v,
    invoke (build_patient_supervisor_graph env) s = (Ok s2, t)
    /\ fields s2 !! "final_output" = Some v
    /\ sliceable v = true
    /\ fields s2 !! "patient_response_text" = Some v.
Proof.
  destruct (analyze_total env s) as (u & t1 & Hu).
  destruct (analyze_response_text _ _ _ _ Hu) as (v & Hv & Hsl).
  pose proof (node_outcome _ _ _ _ Hu) as Hnode.
  rewrite (invoke_patient_graph _ _ _ _ Hnode).
  assert (Htext : forall d, state_get (apply_update s u) "patient_response_text" d = v)
    by (intros d; apply state_get_update_some; [declared | exact Hv]).
  assert (Hkeep : fields (apply_update s u) !! "patient_response_text" = Some v)
    by (rewrite apply_update_declared by declared; by rewrite Hv).
  unfold decide_next_step. destruct (truthy _).
  - rewrite run_prepare, Htext. eexists _, _, v. split; [reflexivity|].
    split; [|split; [done|]].
    + rewrite apply_update_declared by declared. reflexivity.
    + by rewrite apply_update_absent.
  - rewrite run_finish, Htext. eexists _, _, v. split; [reflexivity|].
    split; [|split; [done|]].
    + rewrite apply_update_declared by declared. reflexivity.
    + by rewrite apply_update_absent.
Qed.



(** X7. when the chain of the analysis cannot be built, the step writes its
    flag under the key ["request_scheuling"], which the state does not
    have: [request_scheduling] keeps the value the state had on entry, and
    that value alone picks the branch. A state that enters with the flag
    set therefore leaves with the handoff to ["supervisor_scheduling"]. *)
Theorem analyze_init_failure_keeps_flag env s e :
  latest_query s ≠ "" ->
  patient_chain env (PATIENT_ANALYSIS_SYSTEM_PROMPT (settings env)) = Raise e ->
  exists u s2 branch,
    analyze_patient_query env s = (Ok u, [ LlmInit "patient_analysis" ])
    /\ u !! "request_scheduling" = None
    /\ u !! "patient_response_text" =
         Some (VStr "Sorry, I'm having trouble understanding right now")
    /\ decide_next_step (apply_update s u) = decide_next_step s
    /\ branch = decide_next_step s
    /\ invoke (build_patient_supervisor_graph env) s =
         (Ok s2,
          [ NodeRun "analyze_patient_query"; LlmInit "patient_analysis"; NodeRun branch ])
    /\ (truthy (state_get s "request_scheduling" (VBool false)) = true ->
        state_get s2 "next_supervisor_required" VNone = VStr "supervisor_scheduling").
Proof.
  intros Hq Hchain.
  assert (Hu : analyze_patient_query env s =
    (Ok {[ "patient_response_text" :=
             VStr "Sorry, I'm having trouble understanding right now";
           "request_scheuling" := VBool false ]},
     [ LlmInit "patient_analysis" ])).
  { unfold analyze_patient_query. rewrite analyze_query.
    apply String.eqb_neq in Hq. rewrite Hq.
    unfold try_or_return; simpl. by rewrite Hchain. }
  pose proof (node_outcome _ _ _ _ Hu) as Hnode.
  assert (Hdec : decide_next_step (apply_update s
            {[ "patient_response_text" :=
                 VStr "Sorry, I'm having trouble understanding right now";
               "request_scheuling" := VBool false ]}) = decide_next_step s).
  { unfold decide_next_step. by rewrite state_get_update_none. }
  rewrite (invoke_patient_graph _ _ _ _ Hnode), Hdec. rewrite Hu.
  unfold decide_next_step in *.
  destruct (truthy (state_get s "request_scheduling" (VBool false))).
  - rewrite run_prepare. eexists _, _, _.
    split; [reflexivity|]. split; [reflexivity|]. split; [reflexivity|].
    split; [exact Hdec|]. split; [reflexivity|]. split; [reflexivity|].
    intros _. by apply state_get_update_some; [declared|].
  - rewrite run_finish. eexists _, _, _.
    split; [reflexivity|]. split; [reflexivity|]. split; [reflexivity|].
    split; [exact Hdec|]. split; [reflexivity|]. split; [reflexivity|].
    discriminate.
Qed.

Lemma analyze_init_failure_keeps_flag_witness :
  let env :=
    {| settings := prompts;
       get_llm := fun _ => true;
       router_chain := fun _ => Ok tt;
       router_invoke := fun _ _ => routing "supervisor_patient_general";
       patient_chain := fun _ => Raise (ValueError "api key missing");
       patient_invoke := fun _ _ => schema_answer |} in
  let s := state_set (initial_state "and tomorrow?" "patient")
             "request_scheduling" (VBool true) in
  latest_query s ≠ ""
  /\ patient_chain env (PATIENT_ANALYSIS_SYSTEM_PROMPT (settings env))
       = Raise (ValueError "api key missing")
  /\ exists u s2 branch,
       analyze_patient_query env s = (Ok u, [ LlmInit "patient_analysis" ])
       /\ u !! "request_scheduling" = None
       /\ u !! "patient_response_text" =
            Some (VStr "Sorry, I'm having trouble understanding right now")
       /\ decide_next_step (apply_update s u) = decide_next_step s
       /\ branch = decide_next_step s
       /\ invoke (build_patient_supervisor_graph env) s =
            (Ok s2,
             [ NodeRun "analyze_patient_query"; LlmInit "patient_analysis";
               NodeRun branch ])
       /\ (truthy (state_get s "request_scheduling" (VBool false)) = true ->
           state_get s2 "next_supervisor_required" VNone = VStr "supervisor_scheduling").
Proof.
  split; [discriminate|]. split; [reflexivity|].
  apply (analyze_init_failure_keeps_flag _ _ (ValueError "api key missing"));
    [discriminate | reflexivity].
Defined.

(** C4, on the code. The analysis step takes the scheduling flag of the
    answer it received from the key ["reuqest_scheduling"], false when the
    answer has no such key or its response text cannot be sliced; the key
    of the schema, ["request_scheduling"], is not read. The flag so read is
    the [request_scheduling] of the update and picks the branch of the
    sub-workflow: an answer that follows the schema never reaches
    [prepare_for_scheduling], an answer with the misspelt key does. *)
Theorem analyze_reads_misspelt_key env s kvs :
  latest_query s ≠ "" ->
  patient_chain env (PATIENT_ANALYSIS_SYSTEM_PROMPT (settings env)) = Ok tt ->
  patient_invoke env (history_str s) (latest_query s) = Ok (VDict kvs) ->
  let flag :=
    if usable_answer (Ok (VDict kvs))
    then default (VBool false) (assoc "reuqest_scheduling" kvs)
    else VBool false in
  exists u t s2,
    analyze_patient_query env s = (Ok u, t)
    /\ u !! "request_scheduling" = Some flag
    /\ invoke (build_patient_supervisor_graph env) s =
         (Ok s2,
          NodeRun "analyze_patient_query" :: t ++
          [NodeRun (if truthy flag then "prepare_for_scheduling"
                    else "finish_conversation")])
    /\ (truthy flag = true ->
        state_get s2 "next_supervisor_required" VNone = VStr "supervisor_scheduling").
Proof.
  intros Hq Hchain Hinv flag.
  assert (exists u t, analyze_patient_query env s = (Ok u, t)
                      /\ u !! "request_scheduling" = Some flag)
    as (u & t & Hu & Hrs).
  { unfold analyze_patient_query. rewrite analyze_query.
    apply String.eqb_neq in Hq. rewrite Hq.
    unfold try_or_return, try_except; simpl. rewrite Hchain; simpl.
    unfold history_str in Hinv. rewrite Hinv; simpl.
    unfold flag, usable_answer.
    destruct (sliceable _) eqn:Hsl.
    - destruct (slice_sliceable _ Hsl) as [x ->]. simpl. by eexists _, _.
    - destruct (slice_not_sliceable _ Hsl) as [e ->]. simpl. by eexists _, _. }
  pose proof (node_outcome _ _ _ _ Hu) as Hnode.
  exists u, t. rewrite (invoke_patient_graph _ _ _ _ Hnode).
  unfold decide_next_step.
  rewrite (state_get_update_some _ _ _ flag); [|declared|exact Hrs].
  destruct (truthy flag).
  - rewrite run_prepare. eexists. split; [exact Hu|]. split; [exact Hrs|].
    split; [reflexivity|]. intros _.
    by apply state_get_update_some; [declared|].
  - rewrite run_finish. eexists. split; [exact Hu|]. split; [exact Hrs|].
    split; [reflexivity | discriminate].
Qed.

Lemma analyze_reads_misspelt_key_witness :
  let env := answering (routing "supervisor_patient_general") schema_answer in
  let s := initial_state "can I book a visit?" "patient" in
  let kvs := [ ("response_text", VStr "Okay, I can help you with scheduling.");
               ("request_scheduling", VBool true) ] in
  let flag :=
    if usable_answer (Ok (VDict kvs))
    then default (VBool false) (assoc "reuqest_scheduling" kvs)
    else VBool false in
  latest_query s ≠ ""
  /\ patient_chain env (PATIENT_ANALYSIS_SYSTEM_PROMPT (settings env)) = Ok tt
  /\ patient_invoke env (history_str s) (latest_query s) = Ok (VDict kvs)
  /\ exists u t s2,
       analyze_patient_query env s = (Ok u, t)
       /\ u !! "request_scheduling" = Some flag
       /\ invoke (build_patient_supervisor_graph env) s =
            (Ok s2,
             NodeRun "analyze_patient_query" :: t ++
             [NodeRun (if truthy flag then "prepare_for_scheduling"
                       else "finish_conversation")])
       /\ (truthy flag = true ->
           state_get s2 "next_supervisor_required" VNone = VStr "supervisor_scheduling").
Proof.
  split; [discriminate|]. split; [reflexivity|]. split; [reflexivity|].
  apply (analyze_reads_misspelt_key
           (answering (routing "supervisor_patient_general") schema_answer)
           (initial_state "can I book a visit?" "patient"));
    [discriminate | reflexivity | reflexivity].
Defined.

(** The answer of the schema asks for scheduling, and the step returns the
    flag false: the run goes through [finish_conversation] and sets no
    handoff. *)
Lemma schema_flag_is_ignored :
  let env := answering (routing "supervisor_patient_general") schema_answer in
  let s := initial_state "can I book a visit?" "patient" in
  exists s2,
    patient_invoke env (history_str s) (latest_query s) =
      Ok (VDict [ ("response_text", VStr "Okay, I can help you with scheduling.");
                  ("request_scheduling", VBool true) ])
    /\ analyze_patient_query env s =
         (Ok {[ "patient_response_text" := VStr "Okay, I can help you with scheduling.";
                "request_scheduling" := VBool false ]},
          [ LlmInit "patient_analysis"; LlmInvoke "patient_analysis" "can I book a visit?" ])
    /\ invoke (build_patient_supervisor_graph env) s =
         (Ok s2,
          [ NodeRun "analyze_patient_query"; LlmInit "patient_analysis";
            LlmInvoke "patient_analysis" "can I book a visit?";
            NodeRun "finish_conversation" ])
    /\ fields s2 !! "next_supervisor_required" = None.
Proof. eexists. repeat split; vm_compute; reflexivity. Qed.

End PatientTurns.

(** ** Whole turns through the main graph *)

Module OrchestratorTurns.
Import Py State Collab Graph Orchestrator Conditions Turns Examples.
Import StateFacts GraphFacts PatientFacts OrchestratorFacts PatientTurns.

(** A key the state does not declare is not written. *)
Lemma apply_update_undeclared s u k :
  k ∉ agent_state_keys -> fields (apply_update s u) !! k = fields s !! k.
Proof.
  intros Hk. unfold apply_update; simpl.
  rewrite lookup_union, map_lookup_filter.
  destruct (u !! k) as [v|]; simpl.
  - rewrite option_guard_False by exact Hk. simpl. by destruct (fields s !! k).
  - by destruct (fields s !! k).
Qed.

Lemma route_logic_cases s :
  (role_is s "patient" /\ route_logic_by_role s = "patient_intent_router")
  \/ (role_is s "doctor" /\ route_logic_by_role s = "doctor_intent_router")
  \/ (unknown_role s /\ route_logic_by_role s = "handle_error_node").
Proof.
  unfold route_logic_by_role, role_is, unknown_role.
  destruct (eq_str _ "patient") eqn:Hp.
  - left. by apply eq_str_true in Hp.
  - destruct (eq_str _ "doctor") eqn:Hd.
    + right. left. by apply eq_str_true in Hd.
    + right. right. by apply eq_str_false in Hp, Hd.
Qed.

Lemma start_node env s :
  next_node (build_main_orchestrator_graph env) START s = Ok (route_logic_by_role s).
Proof.
  eapply next_node_conditional; [reflexivity | reflexivity |].
  destruct (route_logic_cases s) as [[_ ->]|[[_ ->]|[_ ->]]]; reflexivity.
Qed.

(** The handoff check touches no other field. *)
Lemma handoff_check_keeps s k :
  k ≠ "next_supervisor_required" ->
  exists s1,
    handoff_check_node s = (Ok s1, [])
    /\ fields s1 !! k = fields s !! k
    /\ truthy (state_get s1 "next_supervisor_required" VNone) = false.
Proof.
  intros Hk. unfold handoff_check_node.
  destruct (truthy (state_get s "next_supervisor_required" VNone)) eqn:Hp.
  - exists (apply_update s {[ "next_supervisor_required" := VNone ]}). split; [|split].
    + apply node_outcome. unfold check_supervisor_handoff. by rewrite Hp.
    + apply apply_update_absent. by apply lookup_singleton_ne.
    + rewrite (state_get_update_some _ _ _ VNone); [done | declared | reflexivity].
  - exists s. split; [|done].
    rewrite <- (apply_update_empty s) at 2.
    apply node_outcome. unfold check_supervisor_handoff. by rewrite Hp.
Qed.

Lemma run_check_keeps env s k n :
  k ≠ "next_supervisor_required" ->
  exists s1,
    run (S n) (build_main_orchestrator_graph env) "check_supervisor_handoff" s =
      (Ok s1, [NodeRun "check_supervisor_handoff"])
    /\ fields s1 !! k = fields s !! k
    /\ truthy (state_get s1 "next_supervisor_required" VNone) = false.
Proof.
  intros Hk. destruct (handoff_check_keeps s k Hk) as (s1 & Hnode & Hkeep & Hclear).
  exists s1. split; [|done].
  eapply run_last; [reflexivity | reflexivity | exact Hnode |].
  eapply next_node_conditional;
    [reflexivity | by apply route_when_not_pending | reflexivity].
Qed.

(** A placeholder supervisor, then the handoff check, then the end. *)
Lemma run_placeholder env s c f txt n :
  String.eqb c END = false ->
  assoc c (nodes (build_main_orchestrator_graph env)) = Some (node f) ->
  assoc c (edges (build_main_orchestrator_graph env)) = Some (Edge "check_supervisor_handoff") ->
  (forall st, f st = ret {[ "final_output" := VStr txt ]}) ->
  exists s',
    run (S (S n)) (build_main_orchestrator_graph env) c s =
      (Ok s', [NodeRun c; NodeRun "check_supervisor_handoff"])
    /\ state_get s' "final_output" VNone = VStr txt
    /\ truthy (state_get s' "next_supervisor_required" VNone) = false
    /\ fields s' !! "supervisor_name" = fields s !! "supervisor_name".
Proof.
  intros Hc Hn He Hf.
  set (s1 := apply_update s {[ "final_output" := VStr txt ]}).
  destruct (run_check_keeps env s1 "final_output" n) as (s2 & Hrun & Hkeep & Hclear);
    [done|].
  destruct (run_check_keeps env s1 "supervisor_name" n) as (s2' & Hrun' & Hkeep' & _);
    [done|].
  rewrite Hrun in Hrun'. injection Hrun' as <-.
  exists s2. split; [|split; [|split]].
  - erewrite run_step;
      [| exact Hc | exact Hn | apply node_outcome, Hf | by apply next_node_edge].
    fold s1. by rewrite Hrun.
  - unfold state_get. rewrite Hkeep. unfold s1.
    rewrite apply_update_declared by declared. reflexivity.
  - exact Hclear.
  - rewrite Hkeep'. unfold s1. by rewrite apply_update_absent.
Qed.

(** What a routing step decides: the error node, or a name of its list. *)
Lemma determine_intent_decision env s system_prompt valid :
  exists u t c,
    _determine_intent_llm env s system_prompt valid = (Ok u, t)
    /\ u !! "supervisor_name" = Some (VStr c)
    /\ (c = "handle_error_node" \/ In c valid).
Proof.
  unfold _determine_intent_llm.
  destruct (String.eqb _ ""); [eexists _, _, _; split; [done|]; split; [done|]; by left|].
  unfold try_or_return, try_except; simpl.
  destruct (get_llm env "router"); simpl;
    [|eexists _, _, _; split; [done|]; split; [done|]; by left].
  destruct (router_chain env _) as [[]|e]; simpl;
    [|eexists _, _, _; split; [done|]; split; [done|]; by left].
  destruct (router_invoke env _ _) as [resp|e]; simpl;
    [|eexists _, _, _; split; [done|]; split; [done|]; by left].
  destruct (get resp "supervisor" _) as [sup|e]; simpl;
    [|eexists _, _, _; split; [done|]; split; [done|]; by left].
  destruct (get resp "reasoning" _) as [rs|e]; simpl;
    [|eexists _, _, _; split; [done|]; split; [done|]; by left].
  destruct (in_strs sup valid) eqn:Hin; simpl.
  - apply in_strs_true in Hin as (c & Hc & ->).
    eexists _, _, c. split; [done|]. split; [done|]. by right.
  - eexists _, _, _. split; [done|]. split; [done|]. by left.
Qed.

Lemma state_get_some s k m :
  state_get s k VNone = VStr m -> fields s !! k = Some (VStr m).
Proof.
  unfold state_get. destruct (fields s !! k) as [v|]; simpl; [by intros ->|discriminate].
Qed.

(** From a router on: the decision is looked up in the router's table and
    the run goes on from the node it names. *)
Lemma run_router env s rname router path_map u t c n :
  String.eqb rname END = false ->
  assoc rname (nodes (build_main_orchestrator_graph env)) = Some (node router) ->
  assoc rname (edges (build_main_orchestrator_graph env)) =
    Some (ConditionalEdges (fun st => state_get st "supervisor_name" VNone) path_map) ->
  router s = (Ok u, t) ->
  u !! "supervisor_name" = Some (VStr c) ->
  assoc c path_map = Some c ->
  run (S n) (build_main_orchestrator_graph env) rname s =
    let '(r, t') := run n (build_main_orchestrator_graph env) c (apply_update s u) in
    (r, NodeRun rname :: t ++ t').
Proof.
  intros Hr Hn He Hu Hc Hpm.
  eapply run_step; [exact Hr | exact Hn | by apply node_outcome |].
  eapply next_node_conditional; [exact He | | exact Hpm].
  by apply state_get_update_some; [declared|].
Qed.

(** The sub-workflow node, then the handoff check, then the end. *)
Lemma run_patient_general env s n :
  exists s' t v,
    run (S (S n)) (build_main_orchestrator_graph env) "supervisor_patient_general" s =
      (Ok s', t)
    /\ fields s' !! "final_output" = Some v
    /\ sliceable v = true.
Proof.
  destruct (patient_graph_returns env s) as (s2 & t2 & v & Hinv & Hout & Hsl & _).
  destruct (run_check_keeps env s2 "final_output" n) as (s3 & Hrun & Hkeep & _); [done|].
  exists s3. eexists _, v. split; [|split; [by rewrite Hkeep | exact Hsl]].
  erewrite run_step;
    [| reflexivity | reflexivity | exact Hinv | by apply next_node_edge].
  by rewrite Hrun.
Qed.

(** X1. every run of the main graph returns, whatever the state it starts
    from and whatever the collaborators do: no exception leaves the graph,
    the step bound is not reached, and the final state holds a
    [final_output] that is a string or a list, never [None]. *)
Theorem main_graph_always_answers env s :
  exists s' t v,
    invoke (build_main_orchestrator_graph env) s = (Ok s', t)
    /\ fields s' !! "final_output" = Some v
    /\ sliceable v = true.
Proof.
  rewrite (invoke_start _ _ _ (start_node env s)). unfold recursion_limit.
  assert (Herr : forall st n, exists s' t v,
            run (S n) (build_main_orchestrator_graph env) "handle_error_node" st = (Ok s', t)
            /\ fields s' !! "final_output" = Some v /\ sliceable v = true).
  { intros st n. destruct (run_error_node env st n) as (s' & msg & Hrun & Hout & _).
    exists s'. eexists _, (VStr msg). split; [exact Hrun|]. split; [|done].
    by apply state_get_some. }
  assert (Hph : forall c f txt st n,
            String.eqb c END = false ->
            assoc c (nodes (build_main_orchestrator_graph env)) = Some (node f) ->
            assoc c (edges (build_main_orchestrator_graph env)) =
              Some (Edge "check_supervisor_handoff") ->
            (forall x, f x = ret {[ "final_output" := VStr txt ]}) ->
            exists s' t v,
              run (S (S n)) (build_main_orchestrator_graph env) c st = (Ok s', t)
              /\ fields s' !! "final_output" = Some v /\ sliceable v = true).
  { intros c f txt st n H1 H2 H3 H4.
    destruct (run_placeholder env st c f txt n H1 H2 H3 H4) as (s' & Hrun & Hout & _).
    exists s'. eexists _, (VStr txt). split; [exact Hrun|]. split; [|done].
    by apply state_get_some. }
  destruct (route_logic_cases s) as [[_ ->]|[[_ ->]|[_ ->]]].
  - destruct (determine_intent_decision env s
                (PATIENT_INTENT_ROUTER_PROMPT (settings env))
                [ "supervisor_patient_general"; "supervisor_scheduling"; "handle_error_node" ])
      as (u & t & c & Hu & Hc & Hin).
    assert (Hcases : c = "handle_error_node" \/ c = "supervisor_patient_general"
                     \/ c = "supervisor_scheduling") by (simpl in Hin; intuition (subst; auto)).
    erewrite (run_router env s "patient_intent_router" _ _ u t c);
      [| reflexivity | reflexivity | reflexivity | exact Hu | exact Hc
       | by destruct Hcases as [-> | [-> | ->]]].
    destruct Hcases as [-> | [-> | ->]].
    + destruct (Herr (apply_update s u) 23%nat) as (s' & t' & v & -> & Hout & Hsl).
      by eexists _, _, v.
    + destruct (run_patient_general env (apply_update s u) 22%nat)
        as (s' & t' & v & -> & Hout & Hsl).
      by eexists _, _, v.
    + destruct (Hph "supervisor_scheduling" supervisor_scheduling_placeholder _
                  (apply_update s u) 22%nat eq_refl eq_refl eq_refl (fun _ => eq_refl))
        as (s' & t' & v & -> & Hout & Hsl).
      by eexists _, _, v.
  - destruct (determine_intent_decision env s
                (DOCTOR_INTENT_ROUTER_PROMPT (settings env))
                [ "supervisor_doctor_general"; "supervisor_summarization"; "handle_error_node" ])
      as (u & t & c & Hu & Hc & Hin).
    assert (Hcases : c = "handle_error_node" \/ c = "supervisor_doctor_general"
                     \/ c = "supervisor_summarization") by (simpl in Hin; intuition (subst; auto)).
    erewrite (run_router env s "doctor_intent_router" _ _ u t c);
      [| reflexivity | reflexivity | reflexivity | exact Hu | exact Hc
       | by destruct Hcases as [-> | [-> | ->]]].
    destruct Hcases as [-> | [-> | ->]].
    + destruct (Herr (apply_update s u) 23%nat) as (s' & t' & v & -> & Hout & Hsl).
      by eexists _, _, v.
    + destruct (Hph "supervisor_doctor_general" supervisor_doctor_general_placeholder _
                  (apply_update s u) 22%nat eq_refl eq_refl eq_refl (fun _ => eq_refl))
        as (s' & t' & v & -> & Hout & Hsl).
      by eexists _, _, v.
    + destruct (Hph "supervisor_summarization" supervisor_summarization_placeholder _
                  (apply_update s u) 22%nat eq_refl eq_refl eq_refl (fun _ => eq_refl))
        as (s' & t' & v & -> & Hout & Hsl).
      by eexists _, _, v.
  - destruct (Herr s 24%nat) as (s' & t' & v & -> & Hout & Hsl).
    by eexists _, _, v.
Qed.

Lemma determine_intent_no_query env s system_prompt valid :
  latest_query s = "" ->
  _determine_intent_llm env s system_prompt valid =
    (Ok {[ "supervisor_name" := VStr "handle_error_node";
           "route_error" := VStr "No query in state." ]}, []).
Proof.
  intros Hq. unfold _determine_intent_llm.
  change (match last_message _ with Some _ => _ | None => _ end) with (latest_query s).
  by rewrite Hq.
Qed.

Lemma determine_intent_accepts env s system_prompt valid c :
  latest_query s ≠ "" ->
  classifier_up env system_prompt ->
  classifier_answers env system_prompt s c ->
  In c valid ->
  _determine_intent_llm env s system_prompt valid =
    (Ok {[ "supervisor_name" := VStr c ]},
     [ LlmInit "router"; LlmInvoke "router" (latest_query s) ]).
Proof.
  intros Hq [Hllm Hchain] (kvs & Hinv & Hsup) Hin.
  unfold _determine_intent_llm.
  change (match last_message _ with Some _ => _ | None => _ end) with (latest_query s).
  apply String.eqb_neq in Hq. rewrite Hq.
  unfold try_or_return, try_except; simpl.
  rewrite Hllm; simpl. rewrite Hchain; simpl. rewrite Hinv; simpl.
  rewrite Hsup; simpl.
  assert (in_strs (VStr c) valid = true) as -> by (apply in_strs_true; eauto).
  reflexivity.
Qed.

Lemma intent_router_cases role :
  role = "patient" \/ role = "doctor" ->
  exists system_prompt valid path_map,
    (forall env s, intent_router role env s =
       _determine_intent_llm env s (system_prompt env) valid)
    /\ (forall env,
         assoc (role +:+ "_intent_router") (nodes (build_main_orchestrator_graph env)) =
           Some (node (intent_router role env))
         /\ assoc (role +:+ "_intent_router") (edges (build_main_orchestrator_graph env)) =
             Some (ConditionalEdges (fun st => state_get st "supervisor_name" VNone) path_map))
    /\ assoc "handle_error_node" path_map = Some "handle_error_node"
    /\ (forall s, role_is s role -> route_logic_by_role s = role +:+ "_intent_router").
Proof.
  intros [-> | ->].
  - exists (fun env => PATIENT_INTENT_ROUTER_PROMPT (settings env)).
    eexists _, _. split; [reflexivity|]. split; [intros env; split; reflexivity|].
    split; [reflexivity|].
    intros s Hr. unfold route_logic_by_role. red in Hr. by rewrite Hr.
  - exists (fun env => DOCTOR_INTENT_ROUTER_PROMPT (settings env)).
    eexists _, _. split; [reflexivity|]. split; [intros env; split; reflexivity|].
    split; [reflexivity|].
    intros s Hr. unfold route_logic_by_role. red in Hr. by rewrite Hr.
Qed.

(** X5. whenever the routing step of a patient or a doctor names the error
    node, the message of the turn is the generic one. The diagnostic the
    step puts under ["route_error"] is not a field of the state, so the
    error node, reading the state, does not see it. *)
Theorem fallback_message_is_generic env s role u t :
  role = "patient" \/ role = "doctor" ->
  role_is s role ->
  fields s !! "route_error" = None ->
  intent_router role env s = (Ok u, t) ->
  u !! "supervisor_name" = Some (VStr "handle_error_node") ->
  exists s',
    invoke (build_main_orchestrator_graph env) s =
      (Ok s', NodeRun (role +:+ "_intent_router") :: t ++ [NodeRun "handle_error_node"])
    /\ state_get s' "final_output" VNone =
         VStr "Sorry, I encountered an error. Reason: Unknown processing error".
Proof.
  intros Hrole Hr Hnone Hu Hname.
  destruct (intent_router_cases role Hrole) as (p & valid & pm & _ & Hg & Hpm & Hstart).
  destruct (Hg env) as [Hn He].
  rewrite (invoke_start _ _ _ (start_node env s)), (Hstart s Hr).
  unfold recursion_limit.
  erewrite (run_router env s _ _ _ u t "handle_error_node");
    [| by destruct Hrole as [-> | ->] | exact Hn | exact He | exact Hu | exact Hname
     | exact Hpm].
  assert (Hk : "route_error" ∉ agent_state_keys)
    by (apply (bool_decide_unpack _); vm_compute; exact I).
  assert (Herr : handle_error_node (apply_update s u) =
            ret {[ "final_output" :=
                     VStr "Sorry, I encountered an error. Reason: Unknown processing error" ]}).
  { unfold handle_error_node, state_get.
    by rewrite (apply_update_undeclared _ _ _ Hk), Hnone. }
  erewrite run_last;
    [| reflexivity | reflexivity | apply node_outcome, Herr | reflexivity].
  eexists. split; [reflexivity|].
  by apply state_get_update_some; [declared|].
Qed.

Lemma fallback_message_is_generic_witness :
  let env := answering unreachable unreachable in
  let s := initial_state "I have a headache" "patient" in
  let u : gmap string value :=
    {[ "supervisor_name" := VStr "handle_error_node";
       "route_error" := VStr "LLM intent routing failed: connection refused" ]} in
  let t := [ LlmInit "router"; LlmInvoke "router" "I have a headache" ] in
  ("patient" = "patient" \/ "patient" = "doctor")
  /\ role_is s "patient"
  /\ fields s !! "route_error" = None
  /\ intent_router "patient" env s = (Ok u, t)
  /\ u !! "supervisor_name" = Some (VStr "handle_error_node")
  /\ exists s',
       invoke (build_main_orchestrator_graph env) s =
         (Ok s', NodeRun ("patient" +:+ "_intent_router") :: t ++ [NodeRun "handle_error_node"])
       /\ state_get s' "final_output" VNone =
            VStr "Sorry, I encountered an error. Reason: Unknown processing error".
Proof.
  split; [by left|]. split; [reflexivity|]. split; [reflexivity|].
  split; [vm_compute; reflexivity|]. split; [reflexivity|].
  apply (fallback_message_is_generic _ _ "patient"
           {[ "supervisor_name" := VStr "handle_error_node";
              "route_error" := VStr "LLM intent routing failed: connection refused" ]}
           [ LlmInit "router"; LlmInvoke "router" "I have a headache" ]);
    [by left | reflexivity | reflexivity | vm_compute; reflexivity | reflexivity].
Defined.

(** X4. a patient or doctor turn without a user query goes from the router
    straight to the error node: the router builds no chain and makes no
    call to the classifier. *)
Theorem router_without_query env s role :
  role = "patient" \/ role = "doctor" ->
  role_is s role ->
  latest_query s = "" ->
  intent_router role env s =
    (Ok {[ "supervisor_name" := VStr "handle_error_node";
           "route_error" := VStr "No query in state." ]}, [])
  /\ exists s' msg,
       invoke (build_main_orchestrator_graph env) s =
         (Ok s', [ NodeRun (role +:+ "_intent_router"); NodeRun "handle_error_node" ])
       /\ state_get s' "final_output" VNone = VStr msg
       /\ msg ≠ "".
Proof.
  intros Hrole Hr Hq.
  destruct (intent_router_cases role Hrole) as (p & valid & pm & Hf & Hg & Hpm & Hstart).
  destruct (Hg env) as [Hn He].
  assert (Hu := determine_intent_no_query env s (p env) valid Hq).
  rewrite <- Hf in Hu. split; [exact Hu|].
  rewrite (invoke_start _ _ _ (start_node env s)), (Hstart s Hr).
  unfold recursion_limit.
  erewrite (run_router env s _ _ _ _ _ "handle_error_node");
    [| by destruct Hrole as [-> | ->] | exact Hn | exact He | exact Hu | reflexivity
     | exact Hpm].
  edestruct run_error_node as (s' & msg & -> & Hout & Hne).
  by exists s', msg.
Qed.

Lemma router_without_query_witness :
  let env := answering (routing "supervisor_doctor_general") schema_answer in
  let s := initial_state "" "doctor" in
  ("doctor" = "patient" \/ "doctor" = "doctor")
  /\ role_is s "doctor"
  /\ latest_query s = ""
  /\ intent_router "doctor" env s =
       (Ok {[ "supervisor_name" := VStr "handle_error_node";
              "route_error" := VStr "No query in state." ]}, [])
  /\ exists s' msg,
       invoke (build_main_orchestrator_graph env) s =
         (Ok s', [ NodeRun ("doctor" +:+ "_intent_router"); NodeRun "handle_error_node" ])
       /\ state_get s' "final_output" VNone = VStr msg
       /\ msg ≠ "".
Proof.
  split; [by right|]. split; [reflexivity|]. split; [reflexivity|].
  apply router_without_query; [by right | reflexivity | reflexivity].
Defined.

(** X2. when the classifier is up and names a placeholder supervisor the
    role's router accepts, the turn is router, that supervisor, handoff
    check, end; [final_output] is the placeholder's text, the state records
    the chosen supervisor, and no handoff is pending. *)
Theorem placeholder_turn env s role c txt :
  reaches_placeholder role c txt ->
  role_is s role ->
  latest_query s ≠ "" ->
  classifier_up env (router_prompt role env) ->
  classifier_answers env (router_prompt role env) s c ->
  exists s',
    invoke (build_main_orchestrator_graph env) s =
      (Ok s',
       [ NodeRun (role +:+ "_intent_router"); LlmInit "router";
         LlmInvoke "router" (latest_query s); NodeRun c;
         NodeRun "check_supervisor_handoff" ])
    /\ state_get s' "final_output" VNone = VStr txt
    /\ state_get s' "supervisor_name" VNone = VStr c
    /\ truthy (state_get s' "next_supervisor_required" VNone) = false.
Proof.
  intros Hd Hr Hq Hup Hans.
  assert (Hrole : role = "patient" \/ role = "doctor") by (destruct Hd; auto).
  destruct (intent_router_cases role Hrole) as (p & valid & pm & Hf & Hg & Hpm & Hstart).
  destruct (Hg env) as [Hn He].
  rewrite (invoke_start _ _ _ (start_node env s)), (Hstart s Hr).
  unfold recursion_limit.
  assert (Hu : intent_router role env s =
            (Ok {[ "supervisor_name" := VStr c ]},
             [ LlmInit "router"; LlmInvoke "router" (latest_query s) ])).
  { destruct Hd; apply determine_intent_accepts; auto; simpl; auto. }
  assert (Hsup : forall st n, exists s',
            run (S (S n)) (build_main_orchestrator_graph env) c st =
              (Ok s', [NodeRun c; NodeRun "check_supervisor_handoff"])
            /\ state_get s' "final_output" VNone = VStr txt
            /\ truthy (state_get s' "next_supervisor_required" VNone) = false
            /\ fields s' !! "supervisor_name" = fields st !! "supervisor_name").
  { intros st n. destruct Hd; by eapply run_placeholder. }
  destruct (Hsup (apply_update s {[ "supervisor_name" := VStr c ]}) 22%nat)
    as (s' & Hrun & Hout & Hclear & Hkeep).
  assert (Hstep :
            run 25 (build_main_orchestrator_graph env) (role +:+ "_intent_router") s =
              (Ok s',
               [ NodeRun (role +:+ "_intent_router"); LlmInit "router";
                 LlmInvoke "router" (latest_query s); NodeRun c;
                 NodeRun "check_supervisor_handoff" ])).
  { clear Hn He Hpm Hstart Hf Hsup.
    destruct Hd;
      (erewrite run_router;
         [| reflexivity | reflexivity | reflexivity | exact Hu
          | apply lookup_singleton_eq | reflexivity ]);
      by rewrite Hrun. }
  rewrite Hstep. exists s'. split; [reflexivity|]. split; [exact Hout|].
  split; [|exact Hclear].
  unfold state_get. rewrite Hkeep, apply_update_declared by declared. reflexivity.
Qed.

Lemma placeholder_turn_witness :
  let env := answering (routing "supervisor_scheduling") schema_answer in
  let s := initial_state "book me an appointment for Tuesday" "patient" in
  reaches_placeholder "patient" "supervisor_scheduling"
    "Placeholder: Scheduling logic would start here."
  /\ role_is s "patient"
  /\ latest_query s ≠ ""
  /\ classifier_up env (router_prompt "patient" env)
  /\ classifier_answers env (router_prompt "patient" env) s "supervisor_scheduling"
  /\ exists s',
       invoke (build_main_orchestrator_graph env) s =
         (Ok s',
          [ NodeRun ("patient" +:+ "_intent_router"); LlmInit "router";
            LlmInvoke "router" (latest_query s); NodeRun "supervisor_scheduling";
            NodeRun "check_supervisor_handoff" ])
       /\ state_get s' "final_output" VNone =
            VStr "Placeholder: Scheduling logic would start here."
       /\ state_get s' "supervisor_name" VNone = VStr "supervisor_scheduling"
       /\ truthy (state_get s' "next_supervisor_required" VNone) = false.
Proof.
  assert (Hans : classifier_answers
            (answering (routing "supervisor_scheduling") schema_answer)
            (router_prompt "patient" (answering (routing "supervisor_scheduling") schema_answer))
            (initial_state "book me an appointment for Tuesday" "patient")
            "supervisor_scheduling") by (eexists; split; reflexivity).
  split; [constructor|]. split; [reflexivity|]. split; [discriminate|].
  split; [split; reflexivity|]. split; [exact Hans|].
  apply placeholder_turn;
    [constructor | reflexivity | discriminate | split; reflexivity | exact Hans].
Defined.



(** C6, on the code. In each failure mode of the classifier (no model
    instance, a chain that cannot be built, a call that raises, an output
    that is no object, a category outside the names the role's router
    accepts) the turn of a patient or a doctor does not raise: the routing
    step returns the decision that names the error node, with a diagnostic
    under ["route_error"], and the run goes from the router to the error
    node and ends there. The diagnostic stops at the step: [route_error] is
    not a field of the state, so the state after the run holds under that
    key what it held before, and the message of the error node is built
    from that, the generic reason when there was none. *)
Theorem classifier_failure_loses_diagnostic env s role :
  role = "patient" \/ role = "doctor" ->
  role_is s role ->
  gateway_failure env s (router_prompt role env) (accepted_supervisors role) ->
  exists u t d s',
    intent_router role env s = (Ok u, t)
    /\ u !! "supervisor_name" = Some (VStr "handle_error_node")
    /\ u !! "route_error" = Some (VStr d)
    /\ invoke (build_main_orchestrator_graph env) s =
         (Ok s', NodeRun (role +:+ "_intent_router") :: t ++ [NodeRun "handle_error_node"])
    /\ state_get s' "supervisor_name" VNone = VStr "handle_error_node"
    /\ fields s' !! "route_error" = fields s !! "route_error"
    /\ state_get s' "final_output" VNone =
         VStr ("Sorry, I encountered an error. Reason: "
               +:+ str (state_get s "route_error" (VStr "Unknown processing error"))).
Proof.
  intros Hrole Hr Hfail.
  assert (Hf : intent_router role env s =
               _determine_intent_llm env s (router_prompt role env)
                 (accepted_supervisors role))
    by (destruct Hrole as [-> | ->]; reflexivity).
  destruct (fallback_decision _ _ _ _ Hfail) as (u & t & d & Hu & Hname & Hdiag).
  rewrite <- Hf in Hu.
  destruct (intent_router_cases role Hrole) as (p & valid & pm & _ & Hg & Hpm & Hstart).
  destruct (Hg env) as [Hn He].
  exists u, t, d.
  rewrite (invoke_start _ _ _ (start_node env s)), (Hstart s Hr).
  unfold recursion_limit.
  erewrite (run_router env s _ _ _ u t "handle_error_node");
    [| by destruct Hrole as [-> | ->] | exact Hn | exact He | exact Hu | exact Hname
     | exact Hpm].
  assert (Hk : "route_error" ∉ agent_state_keys)
    by (apply (bool_decide_unpack _); vm_compute; exact I).
  assert (Herr : handle_error_node (apply_update s u) =
            ret {[ "final_output" :=
                     VStr ("Sorry, I encountered an error. Reason: "
                           +:+ str (state_get s "route_error"
                                      (VStr "Unknown processing error"))) ]}).
  { unfold handle_error_node, state_get.
    by rewrite (apply_update_undeclared _ _ _ Hk). }
  erewrite run_last;
    [| reflexivity | reflexivity | apply node_outcome, Herr | reflexivity].
  eexists. split; [exact Hu|]. split; [exact Hname|]. split; [exact Hdiag|].
  split; [reflexivity|]. split; [|split].
  - rewrite state_get_update_none by done.
    by apply state_get_update_some; [declared|].
  - by rewrite !(apply_update_undeclared _ _ _ Hk).
  - by apply state_get_update_some; [declared|].
Qed.

Lemma classifier_failure_loses_diagnostic_witness :
  let env := answering unreachable unreachable in
  let s := initial_state "I have a headache" "patient" in
  ("patient" = "patient" \/ "patient" = "doctor")
  /\ role_is s "patient"
  /\ gateway_failure env s (router_prompt "patient" env) (accepted_supervisors "patient")
  /\ exists u t d s',
       intent_router "patient" env s = (Ok u, t)
       /\ u !! "supervisor_name" = Some (VStr "handle_error_node")
       /\ u !! "route_error" = Some (VStr d)
       /\ invoke (build_main_orchestrator_graph env) s =
            (Ok s',
             NodeRun ("patient" +:+ "_intent_router") :: t ++ [NodeRun "handle_error_node"])
       /\ state_get s' "supervisor_name" VNone = VStr "handle_error_node"
       /\ fields s' !! "route_error" = fields s !! "route_error"
       /\ state_get s' "final_output" VNone =
            VStr ("Sorry, I encountered an error. Reason: "
                  +:+ str (state_get s "route_error" (VStr "Unknown processing error"))).
Proof.
  assert (H : gateway_failure (answering unreachable unreachable)
                (initial_state "I have a headache" "patient")
                (router_prompt "patient" (answering unreachable unreachable))
                (accepted_supervisors "patient")).
  { right. right. simpl. exact I. }
  split; [by left|]. split; [reflexivity|]. split; [exact H|].
  apply (classifier_failure_loses_diagnostic _ _ "patient");
    [by left | reflexivity | exact H].
Defined.

(** The turn of a patient with an unreachable classifier: the step's
    diagnostic names the failure, the state after the run has no
    [route_error], and the message gives the generic reason. *)
Lemma unreachable_classifier_loses_diagnostic :
  let env := answering unreachable unreachable in
  let s := initial_state "I have a headache" "patient" in
  exists s',
    patient_intent_router env s =
      (Ok {[ "supervisor_name" := VStr "handle_error_node";
             "route_error" := VStr "LLM intent routing failed: connection refused" ]},
       [ LlmInit "router"; LlmInvoke "router" "I have a headache" ])
    /\ invoke (build_main_orchestrator_graph env) s =
         (Ok s',
          [ NodeRun "patient_intent_router"; LlmInit "router";
            LlmInvoke "router" "I have a headache"; NodeRun "handle_error_node" ])
    /\ fields s' !! "route_error" = None
    /\ state_get s' "final_output" VNone =
         VStr "Sorry, I encountered an error. Reason: Unknown processing error".
Proof. eexists. repeat split; vm_compute; reflexivity. Qed.

End OrchestratorTurns.

(** ** The life of the capability registry *)

Module MCPLifecycle.
Import Py MCP MCPManager Conditions Examples Lifecycle.
Import MCPFacts.
Local Open Scope mcp_scope.

Lemma filter_raw self :
  filter (fun kv : string * ServerConfig => enabled kv.2 = true)
    (_raw_server_configs self) = active_of (_raw_server_configs self).
Proof. reflexivity. Qed.

(** X8. a start whose three calls succeed leaves the manager running with
    the client it built and the tools the servers listed, logs no error,
    and the tools are then those [get_all_tools] returns. *)
Theorem start_client_connects srv self c tools :
  _is_running self = false ->
  active_of (_raw_server_configs self) ≠ ∅ ->
  connects srv (active_of (_raw_server_configs self)) c tools ->
  exists l,
    start_client srv self = (Ok tt, started (_raw_server_configs self) c tools, l)
    /\ forallb (fun r => negb (is_error r)) l = true
    /\ get_all_tools (started (_raw_server_configs self) c tools) =
         (Ok tools, started (_raw_server_configs self) c tools, []).
Proof.
  intros Hrun Hne (Hnew & Henter & Htools).
  unfold start_client, MCP.bind, MCP.try_except, read, log, assign, lift, reset, ret.
  simpl. rewrite Hrun. simpl. rewrite filter_raw.
  destruct (decide _) as [He|_]; [done|]. simpl.
  rewrite Hnew. simpl. rewrite Henter. simpl. rewrite Htools. simpl.
  destruct tools; simpl; eexists; (split; [reflexivity|]); by split.
Qed.

Lemma start_client_connects_witness :
  _is_running (__init__ web_config) = false
  /\ active_of (_raw_server_configs (__init__ web_config)) ≠ ∅
  /\ connects (serving [search_tool]) (active_of (_raw_server_configs (__init__ web_config)))
       {| client_servers := web_config |} [search_tool]
  /\ exists l,
       start_client (serving [search_tool]) (__init__ web_config) =
         (Ok tt, started web_config {| client_servers := web_config |} [search_tool], l)
       /\ forallb (fun r => negb (is_error r)) l = true
       /\ get_all_tools (started web_config {| client_servers := web_config |} [search_tool]) =
            (Ok [search_tool],
             started web_config {| client_servers := web_config |} [search_tool], []).
Proof.
  assert (Hne : active_of (_raw_server_configs (__init__ web_config)) ≠ ∅)
    by (vm_compute; discriminate).
  assert (Hc : connects (serving [search_tool])
                 (active_of (_raw_server_configs (__init__ web_config)))
                 {| client_servers := web_config |} [search_tool])
    by (repeat split; vm_compute; reflexivity).
  split; [reflexivity|]. split; [exact Hne|]. split; [exact Hc|].
  apply (start_client_connects (serving [search_tool]) (__init__ web_config)
           {| client_servers := web_config |} [search_tool]);
    [reflexivity | exact Hne | exact Hc].
Defined.

(** X9. a start in which the construction of the client, its entry or the
    listing of the tools raises does not raise itself: it logs the error
    and leaves the manager not running, without client and without tools,
    also when the exit of the half-started client raises in turn. *)
Theorem failed_start_rolls_back srv self e :
  _is_running self = false ->
  active_of (_raw_server_configs self) ≠ ∅ ->
  start_fails srv (active_of (_raw_server_configs self)) e ->
  exists l,
    start_client srv self = (Ok tt, rolled_back (_raw_server_configs self), l)
    /\ Error ("Error starting MCP client: " +:+ exn_msg e) ∈ l
    /\ get_all_tools (rolled_back (_raw_server_configs self)) =
         (Ok [], rolled_back (_raw_server_configs self),
          [Warning "MCP Client not running. Cannot get tools."]).
Proof.
  intros Hrun Hne Hfail.
  unfold start_client, MCP.bind, MCP.try_except, read, log, assign, lift, reset, ret.
  simpl. rewrite Hrun. simpl. rewrite filter_raw.
  destruct (decide _) as [He|_]; [done|]. simpl.
  destruct Hfail as [Hnew | (c & Hnew & [Henter | [Henter Htools]])];
    rewrite Hnew; simpl; rewrite ?Henter; simpl; rewrite ?Htools; simpl.
  - destruct (_client self) as [c0|]; simpl;
      [destruct (client_aexit srv c0); simpl|];
      eexists; (split; [reflexivity|]); (split; [|reflexivity]);
      rewrite !elem_of_cons; auto.
  - destruct (client_aexit srv c); simpl;
      eexists; (split; [reflexivity|]); (split; [|reflexivity]);
      rewrite !elem_of_cons; auto.
  - destruct (client_aexit srv c); simpl;
      eexists; (split; [reflexivity|]); (split; [|reflexivity]);
      rewrite !elem_of_cons; auto 10.
Qed.

Lemma failed_start_rolls_back_witness :
  _is_running (__init__ web_config) = false
  /\ active_of (_raw_server_configs (__init__ web_config)) ≠ ∅
  /\ start_fails failing_late (active_of (_raw_server_configs (__init__ web_config)))
       (ConnectionError "tools: timed out")
  /\ exists l,
       start_client failing_late (__init__ web_config) =
         (Ok tt, rolled_back web_config, l)
       /\ Error ("Error starting MCP client: "
                 +:+ exn_msg (ConnectionError "tools: timed out")) ∈ l
       /\ get_all_tools (rolled_back web_config) =
            (Ok [], rolled_back web_config,
             [Warning "MCP Client not running. Cannot get tools."]).
Proof.
  assert (Hne : active_of (_raw_server_configs (__init__ web_config)) ≠ ∅)
    by (vm_compute; discriminate).
  assert (Hf : start_fails failing_late
                 (active_of (_raw_server_configs (__init__ web_config)))
                 (ConnectionError "tools: timed out")).
  { right. eexists. split; [reflexivity|]. right. split; reflexivity. }
  split; [reflexivity|]. split; [exact Hne|]. split; [exact Hf|].
  apply (failed_start_rolls_back failing_late (__init__ web_config)
           (ConnectionError "tools: timed out"));
    [reflexivity | exact Hne | exact Hf].
Defined.


(** The call with a non-empty filter, written out. *)
Lemma get_tools_for_agent_log self required :
  required ≠ [] ->
  let found := List.filter (name_in required) (available self) in
  get_tools_for_agent (Some required) self =
    (Ok found, self,
     (if _is_running self then []
      else [Warning "MCP Client not running. Cannot get tools."])
     ++ (if Nat.eqb (length found) (length required) then []
         else [MissingTools (list_to_set required ∖ list_to_set (List.map name found))])).
Proof.
  intros Hne. destruct required as [|n0 required]; [done|].
  cbv zeta. unfold get_tools_for_agent, MCP.bind. rewrite get_all_tools_available.
  unfold log, ret. destruct (Nat.eqb _ _); simpl; by rewrite ?app_nil_r.
Qed.

(** What a start does to a manager that is not running, whatever the
    servers answer. *)
Lemma start_client_outcome srv self :
  _is_running self = false ->
  exists l,
    (start_client srv self = (Ok tt, rolled_back (_raw_server_configs self), l))
    \/ (active_of (_raw_server_configs self) ≠ ∅
        /\ exists c tools,
             start_client srv self =
               (Ok tt, started (_raw_server_configs self) c tools, l)).
Proof.
  intros Hrun.
  unfold start_client, MCP.bind, MCP.try_except, read, log, assign, lift, reset, ret.
  simpl. rewrite Hrun. simpl. rewrite filter_raw.
  destruct (decide _) as [He|Hne]; simpl.
  { eexists. left. unfold rolled_back. by rewrite He. }
  destruct (client_new srv _) as [c|e]; simpl.
  - destruct (client_aenter srv c) as [[]|e]; simpl.
    + destruct (client_get_tools srv c) as [tools|e]; simpl.
      * destruct tools; simpl; eexists; right; (split; [done|]); by eexists _, _.
      * destruct (client_aexit srv c); simpl; eexists; by left.
    + destruct (client_aexit srv c); simpl; eexists; by left.
  - destruct (_client self) as [c0|]; simpl;
      [destruct (client_aexit srv c0); simpl|]; eexists; by left.
Qed.

Lemma start_client_running srv self :
  _is_running self = true ->
  start_client srv self = (Ok tt, self, [Info "MCP client is already running"]).
Proof.
  intros Hrun. unfold start_client, MCP.bind, read, log. simpl. by rewrite Hrun.
Qed.

(** What a stop does to a manager whose fields are consistent. *)
Lemma stop_client_outcome configs srv self :
  consistent configs self ->
  exists l,
    stop_client srv self =
      (Ok tt,
       {| _raw_server_configs := configs;
          _active_server_configs := _active_server_configs self;
          _client := None; _tools := []; _is_running := false |}, l).
Proof.
  intros [Hraw Hc]. destruct self as [raw act cl ts run]. simpl in *. subst raw.
  unfold stop_client, MCP.bind, MCP.try_except, MCP.try_finally, read, log, assign,
    lift, reset, ret.
  simpl. destruct run; simpl.
  - destruct Hc as ([c ->] & _ & _). simpl.
    destruct (client_aexit srv c); simpl; by eexists.
  - destruct Hc as [-> ->]. by eexists.
Qed.

(** The fields of a manager stay consistent through starts and stops,
    whatever the servers answer. *)
Lemma reachable_consistent configs self :
  reachable configs self -> consistent configs self.
Proof.
  induction 1 as [|srv self r self' l _ IH Hstart|srv self r self' l _ IH Hstop].
  - by split.
  - destruct (_is_running self) eqn:Hrun.
    + rewrite (start_client_running _ _ Hrun) in Hstart. by injection Hstart as <- <- <-.
    + destruct IH as [Hraw _].
      destruct (start_client_outcome srv self Hrun) as [l' [Hs | (Hne & c & tools & Hs)]];
        rewrite Hs, Hraw in Hstart; injection Hstart as <- <- <-.
      * by split.
      * rewrite Hraw in Hne. split; [done|]. simpl. split; [by eexists | by split].
  - destruct (stop_client_outcome configs srv self IH) as [l' Hs].
    rewrite Hs in Hstop. injection Hstop as <- <- <-. by split.
Qed.

Lemma reachable_started :
  reachable web_config
    (started web_config {| client_servers := web_config |} [search_tool]).
Proof.
  eapply (reach_start web_config (serving [search_tool])); [apply reach_init|].
  vm_compute. reflexivity.
Qed.

(** X10. in every state the manager reaches through starts and stops,
    whatever the servers answer, a call that hands out at least one tool
    finds the manager running, holding a client, built from the unchanged
    configuration and connected to exactly its enabled entries, of which
    there is at least one; and every tool handed out is one the servers
    listed at the start. *)
Theorem tools_only_while_connected configs self required found self' l :
  reachable configs self ->
  get_tools_for_agent required self = (Ok found, self', l) ->
  found ≠ [] ->
  self' = self
  /\ _is_running self = true
  /\ is_Some (_client self)
  /\ _raw_server_configs self = configs
  /\ _active_server_configs self = active_of configs
  /\ (exists server config, configs !! server = Some config /\ enabled config = true)
  /\ forall t, t ∈ found -> t ∈ _tools self.
Proof.
  intros Hreach Hget Hne.
  destruct (reachable_consistent _ _ Hreach) as [Hraw Hc].
  assert (Hsub : self' = self /\ forall t, t ∈ found -> t ∈ available self).
  { destruct required as [[|n0 required]|].
    - unfold get_tools_for_agent, MCP.bind in Hget.
      rewrite get_all_tools_available in Hget. simpl in Hget.
      by injection Hget as <- <- _.
    - rewrite get_tools_for_agent_log in Hget by done. cbv zeta in Hget.
      injection Hget as <- <- _. split; [done|]. intros t Ht.
      rewrite list_elem_of_In in Ht. apply filter_In in Ht as [Ht _].
      by rewrite list_elem_of_In.
    - unfold get_tools_for_agent, MCP.bind in Hget.
      rewrite get_all_tools_available in Hget. simpl in Hget.
      by injection Hget as <- <- _. }
  destruct Hsub as [-> Hsub]. unfold available in Hsub.
  destruct (_is_running self) eqn:Hrun.
  - destruct Hc as (Hcl & Hact & Hsome). repeat split; try done.
    apply map_choose in Hsome as (server & config & Hl).
    apply map_lookup_filter_Some in Hl as [Hl Hen]. by exists server, config.
  - exfalso. destruct found as [|t found]; [done|].
    specialize (Hsub t). rewrite elem_of_cons in Hsub.
    by apply (elem_of_nil t), Hsub; left.
Qed.

Lemma tools_only_while_connected_witness :
  let self := started web_config {| client_servers := web_config |} [search_tool] in
  reachable web_config self
  /\ get_tools_for_agent (Some ["search"]) self = (Ok [search_tool], self, [])
  /\ [search_tool] ≠ []
  /\ self = self
  /\ _is_running self = true
  /\ is_Some (_client self)
  /\ _raw_server_configs self = web_config
  /\ _active_server_configs self = active_of web_config
  /\ (exists server config, web_config !! server = Some config /\ enabled config = true)
  /\ forall t, t ∈ [search_tool] -> t ∈ _tools self.
Proof.
  split; [exact reachable_started|]. split; [vm_compute; reflexivity|].
  split; [discriminate|].
  apply (tools_only_while_connected web_config _ (Some ["search"]) [search_tool] _ []);
    [exact reachable_started | vm_compute; reflexivity | discriminate].
Defined.

(** X11. from every state the manager reaches, a stop returns without
    raising, also when the exit of the client raises, and leaves the
    manager stopped: no client, no tools, not running, so that no tool is
    handed out any more; a second stop then changes nothing and only logs
    that the client is not running. *)
Theorem stop_client_stops configs srv srv' self :
  reachable configs self ->
  exists self' l,
    stop_client srv self = (Ok tt, self', l)
    /\ stopped configs self'
    /\ (forall required, exists l',
          get_tools_for_agent required self' = (Ok [], self', l'))
    /\ stop_client srv' self' =
         (Ok tt, self', [Info "MCP client is not running or not initialized"]).
Proof.
  intros Hreach.
  destruct (stop_client_outcome configs srv self (reachable_consistent _ _ Hreach))
    as [l Hs].
  eexists _, l. split; [exact Hs|]. split; [done|]. split; [|reflexivity].
  intros [[|n required]|]; by eexists.
Qed.

Lemma stop_client_stops_witness :
  reachable web_config
    (started web_config {| client_servers := web_config |} [search_tool])
  /\ exists self' l,
       stop_client failing_late
         (started web_config {| client_servers := web_config |} [search_tool]) =
         (Ok tt, self', l)
       /\ stopped web_config self'
       /\ (forall required, exists l',
             get_tools_for_agent required self' = (Ok [], self', l'))
       /\ stop_client (serving []) self' =
            (Ok tt, self', [Info "MCP client is not running or not initialized"]).
Proof.
  split; [exact reachable_started|].
  apply (stop_client_stops web_config failing_late (serving [])), reachable_started.
Defined.

(** X12. a start from any reached state in which the manager is not running
    is a fresh start: result, state and log are those of a start of the
    manager as it was first built from the configuration, so a stop or a
    failed start leaves nothing behind that a later start could see. *)
Theorem restart_is_fresh_start configs srv self :
  reachable configs self ->
  _is_running self = false ->
  start_client srv self = start_client srv (__init__ configs).
Proof.
  intros Hreach Hrun.
  destruct (reachable_consistent _ _ Hreach) as [Hraw Hc].
  rewrite Hrun in Hc. destruct Hc as [Hcl Hts].
  destruct self as [raw act cl ts run]. simpl in *. subst.
  unfold start_client, MCP.bind, MCP.try_except, read, log, assign, lift, reset, ret.
  simpl. destruct (decide _); simpl; [reflexivity|].
  destruct (client_new srv _) as [c|e]; simpl; [|reflexivity].
  destruct (client_aenter srv c) as [[]|e]; simpl.
  - destruct (client_get_tools srv c) as [tools|e]; simpl.
    + by destruct tools.
    + by destruct (client_aexit srv c).
  - by destruct (client_aexit srv c).
Qed.

Lemma reachable_after_stop :
  reachable web_config
    {| _raw_server_configs := web_config;
       _active_server_configs := active_of web_config;
       _client := None; _tools := []; _is_running := false |}.
Proof.
  eapply (reach_stop web_config failing_late); [exact reachable_started|].
  vm_compute. reflexivity.
Qed.

Lemma restart_is_fresh_start_witness :
  let self :=
    {| _raw_server_configs := web_config;
       _active_server_configs := active_of web_config;
       _client := None; _tools := []; _is_running := false |} in
  reachable web_config self
  /\ _is_running self = false
  /\ start_client (serving [search_tool]) self =
       start_client (serving [search_tool]) (__init__ web_config).
Proof.
  split; [exact reachable_after_stop|]. split; [reflexivity|].
  apply (restart_is_fresh_start web_config); [exact reachable_after_stop | reflexivity].
Defined.

(** X13. when the requested names are distinct and the available tools bear
    distinct names, [get_tools_for_agent] logs its warning exactly when a
    requested name is borne by no available tool, and the set it logs is
    then not empty. *)
Theorem missing_warning_iff_missing self required :
  required ≠ [] ->
  NoDup required ->
  NoDup (List.map name (available self)) ->
  exists found l,
    get_tools_for_agent (Some required) self = (Ok found, self, l)
    /\ ((exists m, MissingTools m ∈ l)
        <-> exists n, n ∈ required /\ forall t, t ∈ available self -> name t ≠ n)
    /\ (forall m, MissingTools m ∈ l -> m ≠ ∅).
Proof.
  intros Hne Hreq Htools.
  destruct required as [|n0 required]; [done|]. set (req := n0 :: required) in *.
  pose proof (get_tools_for_agent_log self req Hne) as Hlog. cbv zeta in Hlog.
  set (found := List.filter (name_in req) (available self)) in *.
  assert (Hiff := lengths_agree_iff_all_found req (available self) Hreq Htools).
  fold found in Hiff.
  assert (Hmiss : forall n,
            n ∈ (list_to_set req ∖ list_to_set (List.map name found) : gset string)
            <-> n ∈ req /\ forall t, t ∈ available self -> name t ≠ n).
  { intros n. rewrite elem_of_difference, !elem_of_list_to_set. split.
    - intros [Hin Hnot]. split; [done|]. intros t Ht Heq. apply Hnot.
      rewrite list_elem_of_In. apply in_map_iff. exists t. split; [done|].
      apply filter_In. rewrite <- list_elem_of_In. split; [done|].
      apply name_in_elem. by rewrite Heq.
    - intros [Hin Hnone]. split; [done|]. intros Hf.
      rewrite list_elem_of_In in Hf. apply in_map_iff in Hf as (t & Heq & Hf).
      apply filter_In in Hf as [Hf _]. rewrite <- list_elem_of_In in Hf.
      by apply (Hnone t). }
  assert (Hex : length found ≠ length req ->
            exists n, n ∈ req /\ forall t, t ∈ available self -> name t ≠ n).
  { intros Hlen.
    destruct (decide (Forall (fun n => Exists (fun t => name t = n) (available self)) req))
      as [Hall|Hnall].
    - exfalso. apply Hlen, Hiff. intros n Hn.
      rewrite Forall_forall in Hall. specialize (Hall n Hn).
      apply Exists_exists in Hall as (t & Ht & Heq). by exists t.
    - apply not_Forall_Exists in Hnall; [|intros n; apply _].
      apply Exists_exists in Hnall as (n & Hn & Hnone).
      exists n. split; [done|]. intros t Ht Heq. apply Hnone.
      apply Exists_exists. by exists t. }
  eexists found, _. split; [exact Hlog|].
  destruct (Nat.eqb (length found) (length req)) eqn:Hlen.
  - apply Nat.eqb_eq in Hlen. split.
    + split.
      * intros [m Hm]. exfalso. rewrite app_nil_r in Hm.
        destruct (_is_running self); [by apply elem_of_nil in Hm|].
        apply list_elem_of_singleton in Hm. discriminate.
      * intros (n & Hn & Hnone). exfalso.
        destruct (proj1 Hiff Hlen n Hn) as (t & Ht & Heq). by apply (Hnone t).
    + intros m Hm. exfalso. rewrite app_nil_r in Hm.
      destruct (_is_running self); [by apply elem_of_nil in Hm|].
      apply list_elem_of_singleton in Hm. discriminate.
  - apply Nat.eqb_neq in Hlen. split.
    + split; [intros _; by apply Hex|].
      intros _. eexists. apply elem_of_app. right. by apply list_elem_of_singleton.
    + intros m Hm. apply elem_of_app in Hm as [Hm|Hm].
      { exfalso. destruct (_is_running self); [by apply elem_of_nil in Hm|].
        apply list_elem_of_singleton in Hm. discriminate. }
      apply list_elem_of_singleton in Hm. injection Hm as ->.
      destruct (Hex Hlen) as (n & Hn). apply Hmiss in Hn.
      intros Hempty. apply (not_elem_of_empty (C := gset string) n).
      rewrite <- Hempty. exact Hn.
Qed.

Lemma missing_warning_iff_missing_witness :
  ["search"; "nonexistent"] ≠ []
  /\ NoDup ["search"; "nonexistent"]
  /\ NoDup (List.map name (available running_manager))
  /\ exists found l,
       get_tools_for_agent (Some ["search"; "nonexistent"]) running_manager =
         (Ok found, running_manager, l)
       /\ ((exists m, MissingTools m ∈ l)
           <-> exists n, n ∈ ["search"; "nonexistent"]
                 /\ forall t, t ∈ available running_manager -> name t ≠ n)
       /\ (forall m, MissingTools m ∈ l -> m ≠ ∅).
Proof.
  assert (H1 : NoDup ["search"; "nonexistent"])
    by (apply (bool_decide_unpack _); vm_compute; reflexivity).
  assert (H2 : NoDup (List.map name (available running_manager)))
    by (apply (bool_decide_unpack _); vm_compute; reflexivity).
  split; [discriminate|]. split; [exact H1|]. split; [exact H2|].
  apply (missing_warning_iff_missing running_manager ["search"; "nonexistent"]);
    [discriminate | exact H1 | exact H2].
Defined.

End MCPLifecycle.

(** ** The loader of the servers' configuration *)

Module ConfigFacts.
Import Py ConfigLoader Files.



Lemma dict_set_fresh k v kvs :
  assoc k kvs = None -> dict_set k v kvs = kvs ++ [(k, v)].
Proof.
  induction kvs as [|[k' x] kvs IH]; simpl; [done|].
  destruct (String.eqb k' k); [done|]. intros H. by rewrite IH.
Qed.

Lemma dict_set_same k v kvs : assoc k kvs = Some v -> dict_set k v kvs = kvs.
Proof.
  induction kvs as [|[k' x] kvs IH]; simpl; [done|].
  destruct (String.eqb k' k); [by intros [= ->]|]. intros H. by rewrite IH.
Qed.



Lemma assoc_None_keys (k : string) (kvs : list (string * value)) :
  assoc k kvs = None <-> ~ In k (List.map fst kvs).
Proof.
  induction kvs as [|[k' x] kvs IH]; simpl; [tauto|].
  destruct (String.eqb k' k) eqn:E.
  - apply String.eqb_eq in E. split; [done|]. intros H. exfalso. apply H. by left.
  - apply String.eqb_neq in E. rewrite IH. tauto.
Qed.

Lemma assoc_app_None (k : string) (xs ys : list (string * value)) :
  assoc k xs = None -> assoc k (xs ++ ys) = assoc k ys.
Proof.
  induction xs as [|[k' x] xs IH]; simpl; [done|].
  destruct (String.eqb k' k); [done | exact IH].
Qed.



Lemma resolve_value_dereferenced w server_name key v :
  (resolve_value w server_name key v).1 = dereferenced w v.
Proof.
  unfold resolve_value, dereferenced, reference.
  destruct v as [| | |s| |]; try done.
  destruct (String.prefix "env:" s); [|done].
  by destruct (getenv w _).
Qed.

Lemma resolve_value_log w server_name key v :
  forallb (fun r => negb (is_error r)) (resolve_value w server_name key v).2 = true.
Proof.
  unfold resolve_value. destruct v as [| | |s| |]; try done.
  destruct (String.prefix "env:" s); [|done].
  by destruct (getenv w _).
Qed.

Lemma resolve_env_log w server_name items acc :
  forallb (fun r => negb (is_error r)) (resolve_env w server_name items acc).2 = true.
Proof.
  revert acc. induction items as [|[k v] items IH]; intros acc; simpl; [done|].
  pose proof (resolve_value_log w server_name k v) as Hv.
  destruct (resolve_value w server_name k v) as [v' l]. simpl in Hv.
  specialize (IH (dict_set k v' acc)).
  destruct (resolve_env w server_name items (dict_set k v' acc)) as [r l'].
  simpl in *. by rewrite forallb_app, Hv, IH.
Qed.

(** When each key is met once, the loop over the environment stores the
    bindings in their order, each with the value it stands for. *)
Lemma resolve_env_unique w server_name items acc :
  unique_keys items ->
  (forall k, In k (List.map fst items) -> assoc k acc = None) ->
  (resolve_env w server_name items acc).1 =
    acc ++ List.map (fun kv => (kv.1, dereferenced w kv.2)) items.
Proof.
  unfold unique_keys. revert acc.
  induction items as [|[k v] items IH]; intros acc Hnd Hacc; simpl.
  { by rewrite app_nil_r. }
  simpl in Hnd. apply NoDup_cons in Hnd as [Hk Hnd].
  pose proof (resolve_value_dereferenced w server_name k v) as Hv.
  destruct (resolve_value w server_name k v) as [v' l]. simpl in Hv. subst v'.
  rewrite (dict_set_fresh k _ acc) by (apply Hacc; by left).
  specialize (IH (acc ++ [(k, dereferenced w v)]) Hnd).
  destruct (resolve_env w server_name items _) as [r l']. simpl in *.
  rewrite IH; [by rewrite <- app_assoc|].
  intros k' Hk'. rewrite assoc_app_None by (apply Hacc; by right). simpl.
  destruct (String.eqb k k') eqn:E; [|done].
  apply String.eqb_eq in E as ->. exfalso. apply Hk. by rewrite list_elem_of_In.
Qed.

Lemma resolve_server_object w server_name server_conf :
  server_object server_conf ->
  exists l,
    resolve_server w server_name server_conf = (Ok (resolved_object w server_conf), l)
    /\ forallb (fun r => negb (is_error r)) l = true.
Proof.
  destruct server_conf as [| | | | |kvs]; try done. simpl. intros [_ Henv].
  destruct (assoc "env" kvs) as [[| | | | |env]|]; try by eexists.
  pose proof (resolve_env_unique w server_name env [] Henv (fun _ _ => eq_refl)) as Hr.
  pose proof (resolve_env_log w server_name env []) as Hl.
  destruct (resolve_env w server_name env []) as [r l]. simpl in *. subst r.
  by exists l.
Qed.

Lemma resolve_servers_objects w items acc :
  unique_keys items ->
  Forall (fun kv => server_object kv.2) items ->
  (forall k, In k (List.map fst items) -> assoc k acc = None) ->
  exists l,
    resolve_servers w items acc =
      (Ok (acc ++ List.map (fun kv => (kv.1, resolved_object w kv.2)) items), l)
    /\ forallb (fun r => negb (is_error r)) l = true.
Proof.
  unfold unique_keys. revert acc.
  induction items as [|[k c] items IH]; intros acc Hnd Hobj Hacc; simpl.
  { exists []. by rewrite app_nil_r. }
  simpl in Hnd. apply NoDup_cons in Hnd as [Hk Hnd].
  apply Forall_cons in Hobj as [Hc Hobj]. simpl in Hc.
  destruct (resolve_server_object w k c Hc) as (l & -> & Hl).
  rewrite (dict_set_fresh k _ acc) by (apply Hacc; by left).
  destruct (IH (acc ++ [(k, resolved_object w c)]) Hnd Hobj) as (l' & -> & Hl').
  { intros k' Hk'. rewrite assoc_app_None by (apply Hacc; by right). simpl.
    destruct (String.eqb k k') eqn:E; [|done].
    apply String.eqb_eq in E as ->. exfalso. apply Hk. by rewrite list_elem_of_In. }
  exists (l ++ l'). split; [by rewrite <- app_assoc|].
  by rewrite forallb_app, Hl, Hl'.
Qed.



(** A broken entry after a good one: nothing is returned. *)
Lemma broken_entry_discards_all :
  load_mcp_config (world_of broken_file) "config/mcp_servers.json" =
    ([],
     [ LogInfo "Loading MCP configuration from config/mcp_servers.json";
       LogError "An unexpected error occured while loading MCP config 'config/mcp_servers.json' : 'str' object has no attribute 'copy'" ]).
Proof. vm_compute. reflexivity. Qed.





(** The file of the example, loaded. *)
Lemma servers_file_loaded :
  (load_mcp_config (world_of servers_file) "config/mcp_servers.json").1 =
    [ ("github",
       VDict [ ("command", VStr "npx");
               ("env", VDict [ ("GITHUB_TOKEN", VStr "s3cret");
                               ("API_KEY", VStr "");
                               ("MODE", VStr "fast") ]) ]);
      ("filesystem",
       VDict [ ("command", VStr "npx"); ("disabled", VBool true) ]) ].
Proof. vm_compute. reflexivity. Qed.

Lemma map_dereferenced_id w (env : list (string * value)) :
  Forall (fun kv => reference kv.2 = None) env ->
  List.map (fun kv => (kv.1, dereferenced w kv.2)) env = env.
Proof.
  induction 1 as [|[k v] env Hv _ IH]; simpl; [done|].
  unfold dereferenced at 1. simpl in Hv. by rewrite Hv, IH.
Qed.

(** X16. a file whose entries are objects and in which no value of an
    environment starts with [env:] is returned as it was parsed, the same
    servers with the same keys and values in the same order, whatever the
    process environment holds. *)
Theorem load_mcp_config_without_references w config_path items :
  holds w config_path items ->
  unique_keys items ->
  Forall (fun kv => server_object kv.2) items ->
  Forall (fun kv => without_reference kv.2) items ->
  (load_mcp_config w config_path).1 = items.
Proof.
  intros [Hfile Hread] Hnd Hobj Hno.
  destruct (resolve_servers_objects w items [] Hnd Hobj (fun _ _ => eq_refl))
    as (l & Hr & Hl).
  unfold load_mcp_config. rewrite Hfile, Hread. simpl. rewrite Hr. simpl.
  clear Hr Hnd Hobj Hread. induction Hno as [|[k c] items Hc _ IH]; simpl; [done|].
  rewrite IH. f_equal. f_equal.
  destruct c as [| | | | |kvs]; try done. simpl in *.
  destruct (assoc "env" kvs) as [[| | | | |env]|] eqn:Henv; try done.
  rewrite (map_dereferenced_id w env Hc). f_equal. by apply dict_set_same.
Qed.

Lemma load_mcp_config_without_references_witness :
  let items := [ ("filesystem",
                  VDict [ ("command", VStr "npx");
                          ("env", VDict [ ("MODE", VStr "fast") ]) ]) ] in
  let w := world_of items in
  holds w "config/mcp_servers.json" items
  /\ unique_keys items
  /\ Forall (fun kv => server_object kv.2) items
  /\ Forall (fun kv => without_reference kv.2) items
  /\ (load_mcp_config w "config/mcp_servers.json").1 = items.
Proof.
  assert (H1 : unique_keys [ ("filesystem",
                  VDict [ ("command", VStr "npx");
                          ("env", VDict [ ("MODE", VStr "fast") ]) ]) ])
    by (apply (bool_decide_unpack _); vm_compute; reflexivity).
  assert (H2 : Forall (fun kv => server_object kv.2)
                 [ ("filesystem",
                    VDict [ ("command", VStr "npx");
                            ("env", VDict [ ("MODE", VStr "fast") ]) ]) ]).
  { apply Forall_cons; simpl. split; [|apply Forall_nil_2].
    split; apply (bool_decide_unpack _); vm_compute; reflexivity. }
  assert (H3 : Forall (fun kv => without_reference kv.2)
                 [ ("filesystem",
                    VDict [ ("command", VStr "npx");
                            ("env", VDict [ ("MODE", VStr "fast") ]) ]) ]).
  { apply Forall_cons; simpl. split; [|apply Forall_nil_2].
    apply Forall_cons; simpl. split; [reflexivity | apply Forall_nil_2]. }
  split; [by split|]. split; [exact H1|]. split; [exact H2|]. split; [exact H3|].
  apply (load_mcp_config_without_references _ _ _); [by split | exact H1 | exact H2 | exact H3].
Defined.

End ConfigFacts.

(** ** The shared model instances *)

Module ModelFacts.
Import Py MCP Models Calls.

(** A name that was asked for keeps its answer through every later call. *)
Lemma get_llm_keeps {LLM} (construct : string -> result LLM) name name' cache answer :
  cache !! name = Some answer ->
  (get_llm construct name' cache).1.2 !! name = Some answer.
Proof.
  intros H. unfold get_llm.
  destruct (cache !! name') as [stored|] eqn:E; [done|].
  assert (name' ≠ name) by (intros ->; congruence).
  destruct (construct _); simpl; by rewrite lookup_insert_ne.
Qed.

Lemma llm_calls_keep {LLM} (calls : list ((string -> result LLM) * string))
    name cache answer :
  cache !! name = Some answer -> llm_calls calls cache !! name = Some answer.
Proof.
  revert cache. induction calls as [|[construct name'] calls IH]; intros cache H; [done|].
  simpl. by apply IH, get_llm_keeps.
Qed.

(** X17. the first answer of [get_llm] for a name is final: after the call,
    and after any further calls for any names, asking for the name again
    returns the same answer, changes nothing and logs nothing, whatever
    the constructor would do now. A failure to build the instance is
    remembered like a success: the name answers [None] from then on. *)
Theorem get_llm_answer_is_final {LLM} (construct construct' : string -> result LLM)
    name cache calls :
  let '(answer, cache1, _) := get_llm construct name cache in
  let cache2 := llm_calls calls cache1 in
  get_llm construct' name cache2 = (answer, cache2, []).
Proof.
  assert (H : (get_llm construct name cache).1.2 !! name =
              Some (get_llm construct name cache).1.1).
  { unfold get_llm. destruct (cache !! name) as [stored|] eqn:E; [done|].
    destruct (construct _); simpl; by rewrite lookup_insert_eq. }
  destruct (get_llm construct name cache) as [[answer cache1] l]. simpl in H.
  cbv zeta. unfold get_llm at 1. by rewrite (llm_calls_keep calls name cache1 answer H).
Qed.

(** A failed construction of the router's model is remembered. *)
Lemma get_llm_failure_is_remembered :
  let failing := fun _ : string => @Raise unit (ValueError "no API key") in
  let working := fun _ : string => Ok tt in
  (get_llm working "router" (get_llm failing "router" ∅).1.2).1.1 = None.
Proof. vm_compute. reflexivity. Qed.

Lemma embedding_calls_built {E} name (outcomes : list (result E)) x :
  embedding_calls name outcomes (Some x) =
    (List.map (fun _ => Some x) outcomes, Some x).
Proof.
  induction outcomes as [|o outcomes IH]; simpl; [done|]. by rewrite IH.
Qed.

Lemma reranker_calls_built {R} key name (outcomes : list (result R)) x :
  reranker_calls key name outcomes (Some x) =
    (List.map (fun _ => Some x) outcomes, Some x).
Proof.
  induction outcomes as [|o outcomes IH]; simpl; [done|]. by rewrite IH.
Qed.

(** X18. unlike [get_llm], the embedding model and the reranker do not
    remember a failure: over successive calls that start without an
    instance, each call answers with the first instance that could be built
    so far, [None] while every construction has failed, and that first
    instance is kept for good. Without a configured key the reranker is
    never built. *)
Theorem first_built_instance_is_kept {E} name key (outcomes : list (result E)) :
  let '(answers, final) := embedding_calls name outcomes None in
  final = first_built outcomes
  /\ (forall i, (i < length outcomes)%nat ->
        answers !! i = Some (first_built (take (S i) outcomes)))
  /\ reranker_calls key name outcomes None =
       if truthy (from_option VStr VNone key)
       then (answers, final)
       else (List.map (fun _ => None) outcomes, None).
Proof.
  induction outcomes as [|o outcomes IH]; simpl.
  { split; [done|]. split; [intros i Hi; simpl in Hi; lia|]. by destruct (truthy _). }
  destruct o as [x|e]; simpl.
  - rewrite embedding_calls_built. split; [done|]. split.
    + intros [|i] Hi; [done|]. simpl in *. unfold first_built. simpl.
      rewrite list_lookup_fmap.
      destruct (outcomes !! i) eqn:Hi'; [done|].
      apply lookup_ge_None in Hi'. lia.
    + destruct (truthy _) eqn:K; simpl; [by rewrite reranker_calls_built|].
      clear IH. assert (H : forall inst,
        inst = None -> reranker_calls key name outcomes inst =
          (List.map (fun _ => None) outcomes, None)).
      { induction outcomes as [|o' outcomes' IH']; intros inst ->; simpl; [done|].
        rewrite K. simpl. by rewrite IH'. }
      by rewrite H.
  - destruct (embedding_calls name outcomes None) as [answers final].
    destruct IH as (Hfinal & Hans & Hre). split; [done|]. split.
    + intros [|i] Hi; [done|]. simpl in *. apply Hans. lia.
    + destruct (truthy _) eqn:K; simpl; by rewrite Hre.
Qed.

End ModelFacts.

(** ** The chunks of a document *)

Module ChunkFacts.
Import Py ConfigLoader MCP DocumentProcessor Chunks.
Import ConfigFacts.









(** A chunk text that comes twice keeps its two indices. *)
Lemma repeated_chunks_keep_their_indices :
  let text := "Rest." +:+ newline +:+ " " +:+ newline +:+ "Rest." in
  List.map (fun doc => (chunk_number doc, page_content doc))
    (process_document line_library (VStr text) (Some [ ("source", VStr "leaflet.txt") ])).1.1 =
  [ (Some (VInt 0), "Rest."); (Some (VInt 2), "Rest.") ].
Proof. vm_compute. reflexivity. Qed.

(** The leaflet of the example: two documents, numbered 0 and 2, each with
    [total_chunks] 3. *)
Lemma blank_chunk_leaves_gap :
  let text := "Dosage policy" +:+ newline +:+ " " +:+ newline +:+ "Take one tablet." in
  List.map (fun doc => (page_content doc, chunk_number doc,
                        assoc "total_chunks" (metadata doc),
                        assoc "document_type" (metadata doc)))
    (process_document line_library (VStr text) (Some [ ("source", VStr "leaflet.txt") ])).1.1 =
  [ ("Dosage policy", Some (VInt 0), Some (VInt 3), Some (VStr "policy"));
    ("Take one tablet.", Some (VInt 2), Some (VInt 3), Some (VStr "policy")) ].
Proof. vm_compute. reflexivity. Qed.

End ChunkFacts.
